(** * webScrapper dashboard: the client-side synchronisation layer

    A shallow embedding of the React front end
    ([services/api.ts], [App.tsx], [ScraperInterface.tsx],
    [VideoManager.tsx], [PDFManager.tsx]) and the properties of its
    download tracking, list refresh, job submission and delayed-refresh
    timer.

    Asynchronous handlers are embedded as terms of a small free monad
    [Async]: synchronous state updates, reads of the current component
    state, and [Await] nodes at which the handler is suspended until the
    HTTP request settles.  [exec] runs a handler up to its next suspension
    point and [resume] delivers a settlement to a suspended handler, so
    overlapping calls are written as explicit interleavings.

    Styling is outside the embedding, and so are the animations, except
    for the exit of the view under [AnimatePresence], which delays the
    mounting of the next view ([Stage]). *)

From Stdlib Require Import NArith Ascii String.
From stdpp Require Import base option list gmap.

Local Open Scope N_scope.

(* ===================================================================== *)
(** ** JavaScript strings *)
(* ===================================================================== *)

Module JS.

(** A JavaScript string is a sequence of UTF-16 code units. *)
Abbreviation jsstring := (list N).

(** An ASCII literal as a JavaScript string. *)
Definition js (s : string) : jsstring :=
  N_of_ascii <$> list_ascii_of_string s.

(** [WhiteSpace] and [LineTerminator] code points of ECMAScript, the
    characters [String.prototype.trim] removes. *)
Definition is_white_space (c : N) : bool :=
  (c =? 0x09) || (c =? 0x0A) || (c =? 0x0B) || (c =? 0x0C) || (c =? 0x0D)
  || (c =? 0x20) || (c =? 0xA0) || (c =? 0x1680)
  || ((0x2000 <=? c) && (c <=? 0x200A))
  || (c =? 0x2028) || (c =? 0x2029) || (c =? 0x202F) || (c =? 0x205F)
  || (c =? 0x3000) || (c =? 0xFEFF).

Fixpoint trimStart (s : jsstring) : jsstring :=
  match s with
  | c :: s' => if is_white_space c then trimStart s' else s
  | [] => []
  end.

Definition trimEnd (s : jsstring) : jsstring :=
  reverse (trimStart (reverse s)).

(** [s.trim()] *)
Definition trim (s : jsstring) : jsstring := trimEnd (trimStart s).

(** Truthiness of a string: the empty string is falsy. *)
Definition truthy (s : jsstring) : bool :=
  match s with [] => false | _ :: _ => true end.

(** Truthiness of an optional string property: [undefined] and the empty
    string are falsy. *)
Definition truthy_opt (x : option jsstring) : bool :=
  match x with Some s => truthy s | None => false end.

(** [x || d] where [x] is a possibly undefined string and [d] a string. *)
Definition or_else (x : option jsstring) (d : jsstring) : jsstring :=
  match x with
  | Some (c :: s) => c :: s
  | _ => d
  end.

(** [s.split(sep)] for a one-character separator: never an empty array. *)
Fixpoint split (sep : N) (s : jsstring) : list jsstring :=
  match s with
  | [] => [[]]
  | c :: s' =>
      if c =? sep then [] :: split sep s'
      else match split sep s' with
           | seg :: rest => (c :: seg) :: rest
           | [] => [[c]]
           end
  end.

(** [a.pop()] as a value: the last element, [undefined] on an empty array. *)
Definition pop {A} (a : list A) : option A := last a.

Definition slash : N := 0x2F.

End JS.
Import JS.

(* ===================================================================== *)
(** ** services/api.ts: the data model and the HTTP contract *)
(* ===================================================================== *)

(** [interface Video].  [interface PDF] has the same properties without
    [title] and [duration], which are optional here, so one record serves
    both; a PDF is an artifact whose [title] and [duration] are absent. *)
Record Artifact := {
  id : jsstring;
  url : jsstring;
  title : option jsstring;
  duration : option N;
  filename : option jsstring;
  file_size : option N;
  minio_object_name : option jsstring;
  download_date : option jsstring;
  (* [meta], an untyped record shown in a caption only, is left out *)
}.

(** [interface ScrapeRequest] *)
Record ScrapeRequest := {
  req_urls : list jsstring;
  req_keywords : list jsstring;
}.

(** [interface ScrapeStatus] *)
Record ScrapeStatus := {
  status : jsstring;
  message : jsstring;
  task_id : option jsstring;
}.

(** A [Blob] is an opaque payload. *)
Abbreviation Blob := (list N) (only parsing).

(** The value a rejected promise carries. *)
Abbreviation Error := (list N) (only parsing).

(** The two list views share their code up to the resource they manage. *)
Inductive Kind := VideoKind | PdfKind.

(** The requests [apiService] issues that the embedded components use. *)
Inductive Request :=
| Post_scrape (request : ScrapeRequest)      (* POST /scrape *)
| Get_list (k : Kind)                        (* GET /videos, GET /pdfs *)
| Get_download (k : Kind) (item : jsstring). (* GET /videos/{id}/download, ... *)

(** The shape of [response.data] for each request. *)
Inductive RespTy := TStatus | TArtifacts | TBlob.

Definition El (t : RespTy) : Type :=
  match t with
  | TStatus => ScrapeStatus
  | TArtifacts => list Artifact
  | TBlob => Blob
  end.

Definition resp_ty (r : Request) : RespTy :=
  match r with
  | Post_scrape _ => TStatus
  | Get_list _ => TArtifacts
  | Get_download _ _ => TBlob
  end.

(** How an awaited promise settles. *)
Inductive Outcome (T : Type) :=
| Resolved (v : T)
| Rejected (e : Error).
Arguments Resolved {T} v.
Arguments Rejected {T} e.

(** What the remote side (or the transport) delivers for a request. *)
Inductive Response :=
| RespStatus (s : ScrapeStatus)
| RespArtifacts (l : list Artifact)
| RespBlob (b : Blob).

Inductive Settlement :=
| Fulfil (resp : Response)
| Reject (e : Error).

(** A settlement fits a request when the response has the request's shape;
    a rejection fits every request. *)
Definition fit (t : RespTy) (s : Settlement) : option (Outcome (El t)) :=
  match s, t with
  | Reject e, _ => Some (Rejected e)
  | Fulfil (RespStatus v), TStatus => Some (Resolved v)
  | Fulfil (RespArtifacts v), TArtifacts => Some (Resolved v)
  | Fulfil (RespBlob v), TBlob => Some (Resolved v)
  | _, _ => None
  end.

(** Observable effects on the host environment, oldest first. *)
Inductive Effect :=
| Alert (msg : jsstring)                          (* alert(msg) *)
| ConsoleError (msg : jsstring) (error : Error)   (* console.error(msg, error) *)
| Http (r : Request)                              (* a request handed to axios *)
| DownloadFile (blob : Blob) (name : jsstring).   (* downloadFile(blob, name) *)

(* ===================================================================== *)
(** ** Component state *)
(* ===================================================================== *)

(** [type TabType] of App.tsx *)
Inductive TabType := scraper | videos | pdfs | reports.

(** App.tsx: [activeTab], [refreshTrigger], [isLoading] *)
Module AppState.
Record t := {
  activeTab : TabType;
  refreshTrigger : N;
  isLoading : bool;
}.
Definition initial : t :=
  {| activeTab := scraper; refreshTrigger := 0; isLoading := true |}.
End AppState.

(** ScraperInterface.tsx: [urls], [keywords], [loading], [showSuccess] *)
Module ScraperState.
Record t := {
  urls : list jsstring;
  keywords : list jsstring;
  loading : bool;
  showSuccess : bool;
}.
Definition initial : t :=
  {| urls := [[]]; keywords := [[]]; loading := false; showSuccess := false |}.
End ScraperState.

(** VideoManager.tsx / PDFManager.tsx: [videos] / [pdfs], [loading],
    [downloading] *)
Module ManagerState.
Record t := {
  items : list Artifact;
  loading : bool;
  downloading : gset (list N);
}.
Definition initial : t :=
  {| items := []; loading := true; downloading := ∅ |}.
End ManagerState.

(** The callbacks App.tsx hands to [setTimeout]. *)
Inductive TimerCallback :=
| HideSplash      (* () => setIsLoading(false) *)
| BumpRefresh.    (* () => setRefreshTrigger(prev => prev + 1) *)

Record Timer := {
  timer_id : N;
  due : N;                  (* milliseconds on the host clock *)
  callback : TimerCallback;
}.

Record World := {
  app : AppState.t;
  scraper_ui : ScraperState.t;
  manager : ManagerState.t;
  clock : N;
  timers : list Timer;      (* pending timers, in creation order *)
  next_timer : N;
  log : list Effect;
}.

Definition with_app (f : AppState.t → AppState.t) (w : World) : World :=
  {| app := f (app w); scraper_ui := scraper_ui w; manager := manager w;
     clock := clock w; timers := timers w; next_timer := next_timer w;
     log := log w |}.

Definition with_scraper (f : ScraperState.t → ScraperState.t) (w : World) : World :=
  {| app := app w; scraper_ui := f (scraper_ui w); manager := manager w;
     clock := clock w; timers := timers w; next_timer := next_timer w;
     log := log w |}.

Definition with_manager (f : ManagerState.t → ManagerState.t) (w : World) : World :=
  {| app := app w; scraper_ui := scraper_ui w; manager := f (manager w);
     clock := clock w; timers := timers w; next_timer := next_timer w;
     log := log w |}.

Definition with_clock (t : N) (w : World) : World :=
  {| app := app w; scraper_ui := scraper_ui w; manager := manager w;
     clock := t; timers := timers w; next_timer := next_timer w;
     log := log w |}.

Definition with_timers (f : list Timer → list Timer) (w : World) : World :=
  {| app := app w; scraper_ui := scraper_ui w; manager := manager w;
     clock := clock w; timers := f (timers w); next_timer := next_timer w;
     log := log w |}.

Definition emit (e : Effect) (w : World) : World :=
  {| app := app w; scraper_ui := scraper_ui w; manager := manager w;
     clock := clock w; timers := timers w; next_timer := next_timer w;
     log := log w ++ [e] |}.

(* ===================================================================== *)
(** ** Asynchronous handlers *)
(* ===================================================================== *)

Inductive Async (A : Type) : Type :=
| Return (a : A)
| Raise (e : Error)
| Update (f : World → World) (k : Async A)
| Read (k : World → Async A)
| Await (r : Request) (k : Outcome (El (resp_ty r)) → Async A).
Arguments Return {A} a.
Arguments Raise {A} e.
Arguments Update {A} f k.
Arguments Read {A} k.
Arguments Await {A} r k.

Fixpoint bind {A B} (m : Async A) (f : A → Async B) : Async B :=
  match m with
  | Return a => f a
  | Raise e => Raise e
  | Update g k => Update g (bind k f)
  | Read k => Read (λ w, bind (k w) f)
  | Await r k => Await r (λ o, bind (k o) f)
  end.

#[export] Instance Async_ret : MRet Async := @Return.
#[export] Instance Async_bind : MBind Async := λ A B f m, bind m f.

(** [try { body } catch (error) { handler }] *)
Fixpoint try_catch {A} (body : Async A) (handler : Error → Async A) : Async A :=
  match body with
  | Return a => Return a
  | Raise e => handler e
  | Update g k => Update g (try_catch k handler)
  | Read k => Read (λ w, try_catch (k w) handler)
  | Await r k => Await r (λ o, try_catch (k o) handler)
  end.

(** [try { body } finally { finalizer }]: the finalizer runs on both exits
    and the body's completion stands unless the finalizer itself throws. *)
Fixpoint try_finally {A} (body : Async A) (finalizer : Async unit) : Async A :=
  match body with
  | Return a => bind finalizer (λ _, Return a)
  | Raise e => bind finalizer (λ _, Raise e)
  | Update g k => Update g (try_finally k finalizer)
  | Read k => Read (λ w, try_finally (k w) finalizer)
  | Await r k => Await r (λ o, try_finally (k o) finalizer)
  end.

Definition try_catch_finally {A} (body : Async A) (handler : Error → Async A)
    (finalizer : Async unit) : Async A :=
  try_finally (try_catch body handler) finalizer.

(** [await p]: a rejection is thrown at the suspension point. *)
Definition await (r : Request) : Async (El (resp_ty r)) :=
  Await r (λ o, match o with
                | Resolved v => Return v
                | Rejected e => Raise e
                end).

Definition update (f : World → World) : Async unit := Update f (Return tt).
Definition alert (msg : string) : Async unit := update (emit (Alert (js msg))).
Definition console_error (msg : string) (error : Error) : Async unit :=
  update (emit (ConsoleError (js msg) error)).

(** Run a handler up to its next suspension point.  Reaching an [Await]
    hands the request to the transport. *)
Fixpoint exec {A} (p : Async A) (w : World) : World * Async A :=
  match p with
  | Return a => (w, Return a)
  | Raise e => (w, Raise e)
  | Update f k => exec k (f w)
  | Read k => exec (k w) w
  | Await r k => (emit (Http r) w, Await r k)
  end.

(** Deliver a settlement to a suspended handler and run it on.  A handler
    that is not suspended, or a response of the wrong shape, changes
    nothing. *)
Definition resume {A} (s : Settlement) (p : Async A) (w : World) : World * Async A :=
  match p with
  | Await r k =>
      match fit (resp_ty r) s with
      | Some o => exec (k o) w
      | None => (w, p)
      end
  | _ => (w, p)
  end.

(** Run a handler to the end, settling its requests one after the other
    from [ss]. *)
Fixpoint settle_all {A} (ss : list Settlement) (st : World * Async A) : World * Async A :=
  match ss with
  | [] => st
  | s :: ss' => settle_all ss' (resume s st.2 st.1)
  end.

Definition run {A} (p : Async A) (ss : list Settlement) (w : World) : World * Async A :=
  settle_all ss (exec p w).

(** The requests and the saved files recorded in a log. *)
Definition requests (l : list Effect) : list Request :=
  omap (λ e, match e with Http r => Some r | _ => None end) l.

Definition saved (l : list Effect) : list (Blob * jsstring) :=
  omap (λ e, match e with DownloadFile b n => Some (b, n) | _ => None end) l.

Definition alerts (l : list Effect) : list jsstring :=
  omap (λ e, match e with Alert m => Some m | _ => None end) l.

(* ===================================================================== *)
(** ** services/api.ts: [apiService] and [downloadFile] *)
(* ===================================================================== *)

Module apiService.

Definition scrapeContent (request : ScrapeRequest) : Async ScrapeStatus :=
  response ← await (Post_scrape request); mret response.

Definition getVideos : Async (list Artifact) :=
  response ← await (Get_list VideoKind); mret response.

Definition getPDFs : Async (list Artifact) :=
  response ← await (Get_list PdfKind); mret response.

Definition downloadVideo (videoId : jsstring) : Async Blob :=
  response ← await (Get_download VideoKind videoId); mret response.

Definition downloadPDF (pdfId : jsstring) : Async Blob :=
  response ← await (Get_download PdfKind pdfId); mret response.

End apiService.

(** [downloadFile(blob, filename)]: the browser saves the blob under the
    name; the anchor element it clicks is not modelled further. *)
Definition downloadFile (blob : Blob) (name : jsstring) : Async unit :=
  update (emit (DownloadFile blob name)).

(* ===================================================================== *)
(** ** VideoManager.tsx and PDFManager.tsx *)
(* ===================================================================== *)

Module Manager.
Import ManagerState.

Section WithKind.
Variable k : Kind.

(** The literals in which the two components differ. *)
Definition fetch_failed : string :=
  match k with
  | VideoKind => "Failed to fetch videos:"
  | PdfKind => "Failed to fetch PDFs:"
  end.

Definition not_available : string :=
  match k with
  | VideoKind => "Video not available for download"
  | PdfKind => "PDF not available for download"
  end.

Definition download_failed_log : string :=
  match k with
  | VideoKind => "Failed to download video:"
  | PdfKind => "Failed to download PDF:"
  end.

Definition download_failed : string :=
  match k with
  | VideoKind => "Failed to download video"
  | PdfKind => "Failed to download PDF"
  end.

(** [`video_${video.id}.mp4`] and [`document_${pdf.id}.pdf`] *)
Definition fallback_name (item : jsstring) : jsstring :=
  match k with
  | VideoKind => js "video_" ++ item ++ js ".mp4"
  | PdfKind => js "document_" ++ item ++ js ".pdf"
  end.

Definition getItems : Async (list Artifact) :=
  match k with
  | VideoKind => apiService.getVideos
  | PdfKind => apiService.getPDFs
  end.

Definition downloadItem (item : jsstring) : Async Blob :=
  match k with
  | VideoKind => apiService.downloadVideo item
  | PdfKind => apiService.downloadPDF item
  end.

(** The state setters of the component. *)
Definition setItems (data : list Artifact) : Async unit :=
  update (with_manager (λ m,
    {| items := data; loading := loading m; downloading := downloading m |})).

Definition setLoading (b : bool) : Async unit :=
  update (with_manager (λ m,
    {| items := items m; loading := b; downloading := downloading m |})).

Definition setDownloading (f : gset (list N) → gset (list N)) : Async unit :=
  update (with_manager (λ m,
    {| items := items m; loading := loading m; downloading := f (downloading m) |})).

(** [fetchVideos] / [fetchPDFs] *)
Definition fetchItems : Async unit :=
  try_catch_finally
    (setLoading true;;
     data ← getItems;
     setItems data)
    (λ error, console_error fetch_failed error)
    (setLoading false).

(** [video.filename || video.url.split('/').pop() || `video_${video.id}.mp4`] *)
Definition download_name (a : Artifact) : jsstring :=
  or_else (filename a)
    (or_else (pop (split slash (url a))) (fallback_name (id a))).

(** [handleDownload] *)
Definition handleDownload (a : Artifact) : Async unit :=
  if negb (truthy_opt (minio_object_name a)) then
    alert not_available;;
    mret tt
  else
    try_catch_finally
      (setDownloading (λ prev, prev ∪ {[id a]});;
       blob ← downloadItem (id a);
       downloadFile blob (download_name a))
      (λ error,
         console_error download_failed_log error;;
         alert download_failed)
      (setDownloading (λ prev, prev ∖ {[id a]})).

(** [downloading.has(id)] *)
Definition isBusy (item : jsstring) (m : ManagerState.t) : bool :=
  bool_decide (item ∈ downloading m).

(** What the component renders.  Of a card, the item it shows, the state of
    its download button (absent unless the item has an object name) and the
    "being processed" notice are kept. *)
Record Card := {
  card_key : jsstring;
  card_item : Artifact;
  download_button : option bool;   (* [Some disabled] *)
  processing_notice : bool;
}.

Inductive Body :=
| EmptyState
| Grid (cards : list Card).

Inductive View :=
| Spinner
| Listing (heading_count : nat) (refresh_disabled : bool) (body : Body).

Definition card (m : ManagerState.t) (a : Artifact) : Card :=
  {| card_key := id a;
     card_item := a;
     download_button :=
       if truthy_opt (minio_object_name a)
       then Some (isBusy (id a) m)
       else None;
     processing_notice := negb (truthy_opt (minio_object_name a)) |}.

(** [videos.slice(0, 3)] in VideoManager, [pdfs] in PDFManager *)
Definition visible (l : list Artifact) : list Artifact :=
  match k with
  | VideoKind => take 3%nat l
  | PdfKind => l
  end.

Definition render (m : ManagerState.t) : View :=
  if loading m then Spinner
  else
    Listing (length (items m)) (loading m)
      (if Nat.eqb (length (items m)) 0 then EmptyState
       else Grid (card m <$> visible (items m))).

End WithKind.

(** The two instances. *)
Definition fetchVideos : Async unit := fetchItems VideoKind.
Definition fetchPDFs : Async unit := fetchItems PdfKind.

(** The heading's count and the items shown, read off a view. *)
Definition heading (v : View) : option nat :=
  match v with
  | Spinner => None
  | Listing n _ _ => Some n
  end.

Definition displayed (v : View) : list Artifact :=
  match v with
  | Listing _ _ (Grid cards) => card_item <$> cards
  | _ => []
  end.

Definition buttons (v : View) : list Card :=
  match v with
  | Listing _ _ (Grid cards) => cards
  | _ => []
  end.

End Manager.

(* ===================================================================== *)
(** ** ScraperInterface.tsx *)
(* ===================================================================== *)

Module ScraperInterface.
Import ScraperState.

Section WithProps.
(** [interface ScraperInterfaceProps] *)
Variable onScrapeStart : Async unit.

Definition setUrls (v : list jsstring) : Async unit :=
  update (with_scraper (λ s,
    {| urls := v; keywords := keywords s; loading := loading s;
       showSuccess := showSuccess s |})).

Definition setKeywords (v : list jsstring) : Async unit :=
  update (with_scraper (λ s,
    {| urls := urls s; keywords := v; loading := loading s;
       showSuccess := showSuccess s |})).

Definition setLoading (b : bool) : Async unit :=
  update (with_scraper (λ s,
    {| urls := urls s; keywords := keywords s; loading := b;
       showSuccess := showSuccess s |})).

Definition setShowSuccess (b : bool) : Async unit :=
  update (with_scraper (λ s,
    {| urls := urls s; keywords := keywords s; loading := loading s;
       showSuccess := b |})).

(** [handleSubmit] *)
Definition handleSubmit : Async unit :=
  Read (λ w,
    let validUrls :=
      List.filter (λ url, truthy (trim url)) (urls (scraper_ui w)) in
    let validKeywords :=
      List.filter (λ keyword, truthy (trim keyword)) (keywords (scraper_ui w)) in
    if Nat.eqb (length validUrls) 0 && Nat.eqb (length validKeywords) 0 then
      alert "Please enter at least one URL or keyword";;
      mret tt
    else
      try_catch_finally
        (setLoading true;;
         onScrapeStart;;
         let request :=
           {| req_urls := validUrls; req_keywords := validKeywords |} in
         _ ← apiService.scrapeContent request;
         setShowSuccess true;;
         setUrls [[]];;
         setKeywords [[]])
        (λ error,
           console_error "Failed to start scraping:" error;;
           alert "Failed to start scraping. Please try again.")
        (setLoading false)).

End WithProps.

(** The form as the operator has filled it in. *)
Definition filled (us ks : list jsstring) (w : World) : World :=
  with_scraper (λ s,
    {| urls := us; keywords := ks; loading := loading s;
       showSuccess := showSuccess s |}) w.

End ScraperInterface.

(* ===================================================================== *)
(** ** App.tsx *)
(* ===================================================================== *)

Module App.
Import AppState.

Definition setActiveTab (tab : TabType) : World → World :=
  with_app (λ a,
    {| activeTab := tab; refreshTrigger := refreshTrigger a;
       isLoading := isLoading a |}).

Definition setRefreshTrigger (f : N → N) : World → World :=
  with_app (λ a,
    {| activeTab := activeTab a; refreshTrigger := f (refreshTrigger a);
       isLoading := isLoading a |}).

Definition setIsLoading (b : bool) : World → World :=
  with_app (λ a,
    {| activeTab := activeTab a; refreshTrigger := refreshTrigger a;
       isLoading := b |}).

(** [setTimeout(callback, delay)]: a one-shot timer on the host clock; the
    handle it returns is the value of [next_timer] before the call. *)
Definition setTimeout (cb : TimerCallback) (delay : N) (w : World) : World :=
  {| app := app w; scraper_ui := scraper_ui w; manager := manager w;
     clock := clock w;
     timers := timers w
               ++ [{| timer_id := next_timer w; due := clock w + delay;
                      callback := cb |}];
     next_timer := next_timer w + 1;
     log := log w |}.

(** [clearTimeout(timer)] *)
Definition clearTimeout (timer : N) : World → World :=
  with_timers (List.filter (λ t, negb (timer_id t =? timer))).

(** The mount effect of [App]: the splash screen goes after two seconds.
    The effect returns the handle its cleanup closes over. *)
Definition mount_effect (w : World) : World * N :=
  (setTimeout HideSplash 2000 w, next_timer w).

(** The cleanup of the mount effect, run when [App] is torn down. *)
Definition mount_cleanup (timer : N) : World → World :=
  clearTimeout timer.

(** [handleScrapeStart] *)
Definition handleScrapeStart : Async unit :=
  update (setTimeout BumpRefresh 2000).

(** The element [renderContent] returns: the component and its [key]. *)
Inductive Element :=
| ScraperInterfaceEl          (* <ScraperInterface onScrapeStart={handleScrapeStart} /> *)
| VideoManagerEl (key : N)    (* <VideoManager key={refreshTrigger} /> *)
| PDFManagerEl (key : N)      (* <PDFManager key={refreshTrigger} /> *)
| ReportsManagerEl.           (* <ReportsManager /> *)

#[export] Instance Element_eq_dec : EqDecision Element.
Proof. solve_decision. Defined.

Definition renderContent (a : AppState.t) : Element :=
  match activeTab a with
  | scraper => ScraperInterfaceEl
  | videos => VideoManagerEl (refreshTrigger a)
  | pdfs => PDFManagerEl (refreshTrigger a)
  | reports => ReportsManagerEl
  end.

(** The child [App] renders: none under the splash screen. *)
Definition render (a : AppState.t) : option Element :=
  if isLoading a then None else Some (renderContent a).

(** *** The React runtime, as far as the components rely on it

    A child whose component or [key] differs from the one rendered before
    is torn down and mounted afresh: its state starts from the [useState]
    initial values and its mount effect runs, which for the two list views
    is [fetchVideos()] / [fetchPDFs()].  The list views register no
    cleanup. *)
Definition mount (e : option Element) (w : World) : World :=
  match e with
  | Some ScraperInterfaceEl => with_scraper (λ _, ScraperState.initial) w
  | Some (VideoManagerEl _) =>
      (exec (Manager.fetchItems VideoKind)
         (with_manager (λ _, ManagerState.initial) w)).1
  | Some (PDFManagerEl _) =>
      (exec (Manager.fetchItems PdfKind)
         (with_manager (λ _, ManagerState.initial) w)).1
  | Some ReportsManagerEl => w
  | None => w
  end.

(** React commits a change of [App]'s state made while the view of the
    active tab is the one shown (no tab change is under way, see [Stage]
    below): the view is mounted afresh when its element has changed. *)
Definition commit (before : AppState.t) (w : World) : World :=
  if decide (render before = render (app w)) then w
  else mount (render (app w)) w.

Definition run_callback (cb : TimerCallback) : World → World :=
  match cb with
  | HideSplash => setIsLoading false
  | BumpRefresh => setRefreshTrigger (λ prev, prev + 1)
  end.

(** A timer fires while the view of the active tab is the one shown: its
    callback runs and React commits the new state. *)
Definition fire (t : Timer) (w : World) : World :=
  commit (app w) (run_callback (callback t) w).

(** [ms] milliseconds pass with no tab change under way: the timers that
    have become due are removed and fire in creation order, which is also
    the order in which they become due since every timer of [App] has the
    same delay. *)
Definition elapse (ms : N) (w : World) : World :=
  let now := clock w + ms in
  foldl (λ w' t, fire t w')
    (with_timers (List.filter (λ t, negb (due t <=? now))) (with_clock now w))
    (List.filter (λ t, due t <=? now) (timers w)).

(** The operator submits the form of the scraper view. *)
Definition handleSubmit : Async unit :=
  ScraperInterface.handleSubmit handleScrapeStart.

(** The pending timers that would bump [refreshTrigger]. *)
Definition refresh_timers (w : World) : list Timer :=
  List.filter (λ t, match callback t with BumpRefresh => true | HideSplash => false end)
    (timers w).

End App.

(* ===================================================================== *)
(** ** Sample data *)
(* ===================================================================== *)

(** The world before anything has happened. *)
Definition fresh_world : World :=
  {| app := AppState.initial; scraper_ui := ScraperState.initial;
     manager := ManagerState.initial;
     clock := 0; timers := []; next_timer := 0; log := [] |}.

(** An item the backing service has stored, and one it has not. *)
Definition stored_item (item address : string) : Artifact :=
  {| id := js item; url := js address; title := None; duration := None;
     filename := None; file_size := None;
     minio_object_name := Some (js "objects/key"); download_date := None |}.

Definition unstored_item (item address : string) : Artifact :=
  {| id := js item; url := js address; title := None; duration := None;
     filename := None; file_size := None;
     minio_object_name := None; download_date := None |}.

(** A stored item with the given id and URL and no explicit file name. *)
Definition unnamed (item address : jsstring) : Artifact :=
  {| id := item; url := address; title := None; duration := None;
     filename := None; file_size := None;
     minio_object_name := Some (js "objects/key"); download_date := None |}.

(** The application two seconds after it was opened: the splash screen is
    gone and the scraper view is shown. *)
Definition opened : World :=
  App.elapse 2000 (App.mount_effect fresh_world).1.

(** A video view that has loaded four videos. *)
Definition loaded_videos : ManagerState.t :=
  {| ManagerState.items :=
       [stored_item "1" "https://x.org/a.mp4"; stored_item "2" "https://x.org/b.mp4";
        unstored_item "3" "https://x.org/c.mp4"; stored_item "4" "https://x.org/d.mp4"];
     ManagerState.loading := false;
     ManagerState.downloading := ∅ |}.

(* ===================================================================== *)
(** ** Vocabulary of the statements *)
(* ===================================================================== *)

(** The entries [handleSubmit] keeps: those that are not blank. *)
Definition kept (l : list jsstring) : list jsstring :=
  List.filter (λ entry, truthy (trim entry)) l.

(** The entries trimmed, the blank ones dropped. *)
Definition trimmed_entries (l : list jsstring) : list jsstring :=
  kept (trim <$> l).

(** The timer [handleScrapeStart] creates in world [w]. *)
Definition refresh_timer (w : World) : Timer :=
  {| timer_id := next_timer w; due := clock w + 2000; callback := BumpRefresh |}.

(** The list request the view of a tab issues when it is mounted. *)
Definition mount_requests (tab : TabType) : list Request :=
  match tab with
  | videos => [Get_list VideoKind]
  | pdfs => [Get_list PdfKind]
  | scraper | reports => []
  end.

(** The world once [ms] milliseconds have passed, before the timers that
    have become due fire. *)
Definition pending_after (ms : N) (w : World) : World :=
  with_timers (List.filter (λ t, negb (due t <=? clock w + ms)))
    (with_clock (clock w + ms) w).

(* ===================================================================== *)
(** ** ScraperInterface.tsx: the rows of the form *)
(* ===================================================================== *)

Module ScraperRows.
Import ScraperState ScraperInterface.

(** [a.filter((x, i) => p(i, x))], the indices counted from [i]. *)
Fixpoint filter_from {A} (i : nat) (p : nat → A → bool) (a : list A) : list A :=
  match a with
  | [] => []
  | x :: a' =>
      if p i x then x :: filter_from (S i) p a' else filter_from (S i) p a'
  end.

Definition filteri {A} (p : nat → A → bool) (a : list A) : list A :=
  filter_from 0 p a.

(** [addUrl] *)
Definition addUrl : Async unit :=
  Read (λ w, setUrls (urls (scraper_ui w) ++ [[]])).

(** [removeUrl] *)
Definition removeUrl (index : nat) : Async unit :=
  Read (λ w,
    if Nat.ltb 1 (length (urls (scraper_ui w))) then
      setUrls (filteri (λ i _, negb (Nat.eqb i index)) (urls (scraper_ui w)))
    else mret tt).

(** [updateUrl].  The assignment [newUrls[index] = value] is the list
    update for an index below the length.  Beyond the length JavaScript
    would leave holes in the array, which a list of strings cannot hold;
    the statements about [updateUrl] are for indices below the length, the
    only ones the rendered inputs pass. *)
Definition updateUrl (index : nat) (value : jsstring) : Async unit :=
  Read (λ w, setUrls (<[index := value]> (urls (scraper_ui w)))).

(** [addKeyword] *)
Definition addKeyword : Async unit :=
  Read (λ w, setKeywords (keywords (scraper_ui w) ++ [[]])).

(** [removeKeyword] *)
Definition removeKeyword (index : nat) : Async unit :=
  Read (λ w,
    if Nat.ltb 1 (length (keywords (scraper_ui w))) then
      setKeywords
        (filteri (λ i _, negb (Nat.eqb i index)) (keywords (scraper_ui w)))
    else mret tt).

(** [updateKeyword], as [updateUrl]. *)
Definition updateKeyword (index : nat) (value : jsstring) : Async unit :=
  Read (λ w, setKeywords (<[index := value]> (keywords (scraper_ui w)))).

(** What the operator can do to the rows. *)
Inductive FormEvent :=
| ClickAddUrl
| ClickRemoveUrl (index : nat)
| ChangeUrl (index : nat) (value : jsstring)
| ClickAddKeyword
| ClickRemoveKeyword (index : nat)
| ChangeKeyword (index : nat) (value : jsstring).

(** The handler the rendered form attaches to an event, if the control
    exists: [urls.map((url, index) => ...)] renders one input per row, and
    the remove button of a row only when there is more than one row.  (The
    form shows either the URL rows or the keyword rows; which of the two is
    not tracked, so this offers the events of both.) *)
Definition wired (e : FormEvent) (w : World) : option (Async unit) :=
  match e with
  | ClickAddUrl => Some addUrl
  | ClickRemoveUrl index =>
      if Nat.ltb 1 (length (urls (scraper_ui w)))
         && Nat.ltb index (length (urls (scraper_ui w)))
      then Some (removeUrl index) else None
  | ChangeUrl index value =>
      if Nat.ltb index (length (urls (scraper_ui w)))
      then Some (updateUrl index value) else None
  | ClickAddKeyword => Some addKeyword
  | ClickRemoveKeyword index =>
      if Nat.ltb 1 (length (keywords (scraper_ui w)))
         && Nat.ltb index (length (keywords (scraper_ui w)))
      then Some (removeKeyword index) else None
  | ChangeKeyword index value =>
      if Nat.ltb index (length (keywords (scraper_ui w)))
      then Some (updateKeyword index value) else None
  end.

Definition dispatch (e : FormEvent) (w : World) : World :=
  match wired e w with
  | Some handler => (exec handler w).1
  | None => w
  end.

Definition dispatch_all (es : list FormEvent) (w : World) : World :=
  foldl (λ w' e, dispatch e w') w es.

End ScraperRows.

(* ===================================================================== *)
(** ** ReportsManager.tsx *)
(* ===================================================================== *)

(** The reports view talks to two endpoints of its own and keeps two flags
    of its own, so its handlers are embedded over their own state and
    calls, in the same way as the handlers above. *)
Module Reports.

(** [generating], [downloading], and what the host has seen so far. *)
Record State := {
  generating : bool;
  downloading : bool;
  seen : list Effect;     (* alerts, console errors and saved files *)
  calls : nat * nat;      (* requests sent: generate, download *)
}.

Definition initial : State :=
  {| generating := false; downloading := false; seen := []; calls := (0, 0)%nat |}.

(** [{ status: string; message: string }] *)
Record GenerateResult := {
  result_status : jsstring;
  result_message : jsstring;
}.

Inductive Call :=
| Post_generate      (* POST /reports/generate *)
| Get_reports.       (* GET /reports/download *)

Definition Reply (c : Call) : Type :=
  match c with
  | Post_generate => GenerateResult
  | Get_reports => Blob
  end.

Inductive Answer :=
| Generated (r : GenerateResult)
| Archive (b : Blob)
| Failed (e : Error).

Definition fits (c : Call) (a : Answer) : option (Outcome (Reply c)) :=
  match a, c with
  | Failed e, _ => Some (Rejected e)
  | Generated r, Post_generate => Some (Resolved r)
  | Archive b, Get_reports => Some (Resolved b)
  | _, _ => None
  end.

Inductive Task (A : Type) : Type :=
| Done (a : A)
| Throw (e : Error)
| Step (f : State → State) (k : Task A)
| Wait (c : Call) (k : Outcome (Reply c) → Task A).
Arguments Done {A} a.
Arguments Throw {A} e.
Arguments Step {A} f k.
Arguments Wait {A} c k.

Fixpoint then_ {A B} (m : Task A) (f : A → Task B) : Task B :=
  match m with
  | Done a => f a
  | Throw e => Throw e
  | Step g k => Step g (then_ k f)
  | Wait c k => Wait c (λ o, then_ (k o) f)
  end.

Fixpoint catching {A} (body : Task A) (handler : Error → Task A) : Task A :=
  match body with
  | Done a => Done a
  | Throw e => handler e
  | Step g k => Step g (catching k handler)
  | Wait c k => Wait c (λ o, catching (k o) handler)
  end.

Fixpoint finally {A} (body : Task A) (finalizer : Task unit) : Task A :=
  match body with
  | Done a => then_ finalizer (λ _, Done a)
  | Throw e => then_ finalizer (λ _, Throw e)
  | Step g k => Step g (finally k finalizer)
  | Wait c k => Wait c (λ o, finally (k o) finalizer)
  end.

Definition step (f : State → State) : Task unit := Step f (Done tt).

Definition show (e : Effect) : Task unit :=
  step (λ s, {| generating := generating s; downloading := downloading s;
                seen := seen s ++ [e]; calls := calls s |}).

Definition setGenerating (b : bool) : Task unit :=
  step (λ s, {| generating := b; downloading := downloading s;
                seen := seen s; calls := calls s |}).

Definition setDownloading (b : bool) : Task unit :=
  step (λ s, {| generating := generating s; downloading := b;
                seen := seen s; calls := calls s |}).

Definition count (c : Call) (s : State) : State :=
  {| generating := generating s; downloading := downloading s; seen := seen s;
     calls := match c with
              | Post_generate => (S (calls s).1, (calls s).2)
              | Get_reports => ((calls s).1, S (calls s).2)
              end |}.

Definition wait (c : Call) : Task (Reply c) :=
  Wait c (λ o, match o with Resolved v => Done v | Rejected e => Throw e end).

(** [apiService.generateReports] and [apiService.downloadReports] *)
Definition generateReports : Task GenerateResult :=
  then_ (wait Post_generate) (λ response, Done response).

Definition downloadReports : Task Blob :=
  then_ (wait Get_reports) (λ response, Done response).

(** [handleGenerateReports] *)
Definition handleGenerateReports : Task unit :=
  finally
    (catching
       (then_ (setGenerating true) (λ _,
        then_ generateReports (λ result,
        show (Alert (result_message result)))))
       (λ error,
          then_ (show (ConsoleError (js "Failed to generate reports:") error)) (λ _,
          show (Alert (js "Failed to generate reports")))))
    (setGenerating false).

(** [handleDownloadReports] *)
Definition handleDownloadReports : Task unit :=
  finally
    (catching
       (then_ (setDownloading true) (λ _,
        then_ downloadReports (λ blob,
        show (DownloadFile blob (js "reports.zip")))))
       (λ error,
          then_ (show (ConsoleError (js "Failed to download reports:") error)) (λ _,
          show (Alert (js "Failed to download reports")))))
    (setDownloading false).

(** Run to the next suspension point; deliver an answer. *)
Fixpoint exec {A} (p : Task A) (s : State) : State * Task A :=
  match p with
  | Done a => (s, Done a)
  | Throw e => (s, Throw e)
  | Step f k => exec k (f s)
  | Wait c k => (count c s, Wait c k)
  end.

Definition resume {A} (a : Answer) (p : Task A) (s : State) : State * Task A :=
  match p with
  | Wait c k =>
      match fits c a with
      | Some o => exec (k o) s
      | None => (s, p)
      end
  | _ => (s, p)
  end.

(** The two buttons: [disabled={generating}], [disabled={downloading}]. *)
Definition generate_disabled (s : State) : bool := generating s.
Definition download_disabled (s : State) : bool := downloading s.

End Reports.

(* ===================================================================== *)
(** ** App.tsx: the views under [AnimatePresence] *)
(* ===================================================================== *)

(** [App] renders the view of the active tab inside
    [<AnimatePresence mode="wait"><motion.div key={activeTab} ...>].  When
    the active tab changes, the view shown so far stays mounted, with the
    element it was rendered from, while it leaves (the exit of the
    [motion.div] lasts 0.5 s); only when it has left is the view of the tab
    that is then active mounted.  A tab that is selected and left again
    before that is never mounted, and selecting the tab of the leaving view
    again keeps that view. *)
Module Stage.
Import AppState App.

#[export] Instance TabType_eq_dec : EqDecision TabType.
Proof. solve_decision. Defined.

(** [transition={{ duration: 0.5 }}] *)
Definition exit_ms : N := 500.

(** The [key] of the [motion.div] in which an element was rendered. *)
Definition tab_of (e : Element) : TabType :=
  match e with
  | ScraperInterfaceEl => scraper
  | VideoManagerEl _ => videos
  | PDFManagerEl _ => pdfs
  | ReportsManagerEl => reports
  end.

(** The world, and the view that is leaving, if one is, with the moment at
    which it will have left.  With no view leaving, the view shown is the
    one [App.render] gives. *)
Record t := {
  world : World;
  leaving : option (Element * N);
}.

Definition settled (w : World) : t := {| world := w; leaving := None |}.

(** The view [shown] is rendered again from [App]'s present state. *)
Definition reconcile (shown : Element) (w : World) : World :=
  if decide (Some shown = render (app w)) then w
  else mount (render (app w)) w.

(** The operator selects a tab: [onClick={() => setActiveTab(tab.id)}].
    The navigation is not rendered under the splash screen. *)
Definition select_tab (tab : TabType) (st : t) : t :=
  if isLoading (app (world st)) then st
  else
    match leaving st with
    | None =>
        if decide (tab = activeTab (app (world st))) then
          {| world := setActiveTab tab (world st); leaving := None |}
        else
          {| world := setActiveTab tab (world st);
             leaving := Some (renderContent (app (world st)),
                              clock (world st) + exit_ms) |}
    | Some (old, ends) =>
        if decide (tab = tab_of old) then
          {| world := reconcile old (setActiveTab tab (world st));
             leaving := None |}
        else
          {| world := setActiveTab tab (world st);
             leaving := Some (old, ends) |}
    end.

(** The callbacks of the timers [ts] run while a view is leaving: the
    leaving view keeps the element it was rendered from, so nothing is
    mounted. *)
Definition run_frozen (ts : list Timer) (w : World) : World :=
  foldl (λ w' t, run_callback (callback t) w') w ts.

(** [ms] milliseconds pass.  With a view leaving that has left by then,
    the timers due before that moment run first, then the view of the
    active tab is mounted, then the other timers that are due fire. *)
Definition elapse (ms : N) (st : t) : t :=
  match leaving st with
  | None => settled (App.elapse ms (world st))
  | Some (old, ends) =>
      if ends <=? clock (world st) + ms then
        let before :=
          run_frozen
            (List.filter (λ t, due t <? ends) (timers (world st)))
            (pending_after ms (world st)) in
        settled
          (foldl (λ w' t, fire t w')
             (mount (render (app before)) before)
             (List.filter
                (λ t, (ends <=? due t) && (due t <=? clock (world st) + ms))
                (timers (world st))))
      else
        {| world :=
             run_frozen
               (List.filter (λ t, due t <=? clock (world st) + ms)
                  (timers (world st)))
               (pending_after ms (world st));
           leaving := Some (old, ends) |}
  end.

(** What happens on the stage: a tab is selected, or time passes. *)
Inductive Step :=
| Select (tab : TabType)
| Pass (ms : N).

Definition step (e : Step) (st : t) : t :=
  match e with
  | Select tab => select_tab tab st
  | Pass ms => elapse ms st
  end.



End Stage.

(* ===================================================================== *)
(** ** Further vocabulary *)
(* ===================================================================== *)

(** An entry with a code unit that is not white space. *)
Definition has_ink (entry : jsstring) : bool :=
  existsb (λ c, negb (is_white_space c)) entry.

(** The request a submission sends, if any, given the rows. *)
Definition submission (us ks : list jsstring) : list Request :=
  match kept us, kept ks with
  | [], [] => []
  | us', ks' => [Post_scrape {| req_urls := us'; req_keywords := ks' |}]
  end.

(** Every pending timer was handed out before [next_timer]. *)
Definition handles_fresh (w : World) : Prop :=
  Forall (λ t, timer_id t < next_timer w) (timers w).


(** The list a tab's view manages. *)
Definition tab_kind (tab : TabType) : option Kind :=
  match tab with
  | videos => Some VideoKind
  | pdfs => Some PdfKind
  | scraper | reports => None
  end.

(** A world in which the list view has loaded [l] and [busy] is in flight. *)
Definition showing (l : list Artifact) (busy : gset (list N)) (w : World) : World :=
  with_manager (λ _,
    {| ManagerState.items := l; ManagerState.loading := false;
       ManagerState.downloading := busy |}) w.

(* ===================================================================== *)
(** ** Properties of the list views *)
(* ===================================================================== *)

Section ManagerFacts.
Import ManagerState Manager.

Lemma requests_app l1 l2 : requests (l1 ++ l2) = requests l1 ++ requests l2.
Proof. apply omap_app. Qed.

Lemma saved_app l1 l2 : saved (l1 ++ l2) = saved l1 ++ saved l2.
Proof. apply omap_app. Qed.

Lemma alerts_app l1 l2 : alerts (l1 ++ l2) = alerts l1 ++ alerts l2.
Proof. apply omap_app. Qed.

Lemma card_item_cards m (l : list Artifact) : card_item <$> (card m <$> l) = l.
Proof. induction l as [|a l IH]; [done | by rewrite !fmap_cons, IH]. Qed.

Lemma isBusy_add (item : list N) (s : gset (list N)) (i : list Artifact) (l : bool) :
  isBusy item {| items := i; loading := l; downloading := s ∪ {[item]} |} = true.
Proof.
  unfold isBusy; simpl. apply bool_decide_eq_true.
  apply elem_of_union; right. by apply elem_of_singleton.
Qed.

Lemma isBusy_delete (item : list N) (s : gset (list N)) (i : list Artifact) (l : bool) :
  isBusy item {| items := i; loading := l; downloading := s ∖ {[item]} |} = false.
Proof.
  unfold isBusy; simpl. apply bool_decide_eq_false.
  rewrite elem_of_difference, elem_of_singleton. tauto.
Qed.

(** C4.  A call of [handleDownload] that fetches the payload (the item has
    an object name) marks the item busy while the request is pending, and
    when the request settles, with a payload or with an error and in
    whatever state the component then is, the handler completes normally
    with the item removed from the in-flight set: [isBusy] is false. *)
Theorem handleDownload_releases (k : Kind) (a : Artifact) (w wmid : World)
    (s : Settlement) :
  truthy_opt (minio_object_name a) = true →
  is_Some (fit TBlob s) →
  isBusy (id a) (manager (exec (handleDownload k a) w).1) = true
  ∧ (resume s (exec (handleDownload k a) w).2 wmid).2 = Return tt
  ∧ isBusy (id a) (manager (resume s (exec (handleDownload k a) w).2 wmid).1) = false
  ∧ isBusy (id a) (manager (run (handleDownload k a) [s] w).1) = false.
Proof.
  intros Hk [o Ho]. unfold run, handleDownload. rewrite Hk. simpl.
  destruct k; simpl; rewrite Ho;
    (split; [apply isBusy_add |]);
    destruct o; simpl; repeat split; apply isBusy_delete.
Qed.

Lemma handleDownload_releases_witness :
  isBusy (js "7")
    (manager (run (handleDownload PdfKind (stored_item "7" "https://x.org/report.pdf"))
                [Reject (js "timeout")] fresh_world).1) = false.
Proof.
  apply (handleDownload_releases PdfKind
           (stored_item "7" "https://x.org/report.pdf") fresh_world fresh_world
           (Reject (js "timeout"))).
  - reflexivity.
  - simpl. eauto.
Defined.

(** C9.  For an item without an object name [handleDownload] returns at
    once after the "not available" alert: nothing is requested, the
    in-flight set is the one before the call, so no item changes its busy
    state and an item that was not busy stays so. *)
Theorem handleDownload_not_available (k : Kind) (a : Artifact) (w : World) :
  truthy_opt (minio_object_name a) = false →
  (exec (handleDownload k a) w).2 = Return tt
  ∧ log (exec (handleDownload k a) w).1 = log w ++ [Alert (js (not_available k))]
  ∧ requests (log (exec (handleDownload k a) w).1) = requests (log w)
  ∧ saved (log (exec (handleDownload k a) w).1) = saved (log w)
  ∧ downloading (manager (exec (handleDownload k a) w).1) = downloading (manager w)
  ∧ (isBusy (id a) (manager w) = false →
     isBusy (id a) (manager (exec (handleDownload k a) w).1) = false).
Proof.
  intros Hk. unfold handleDownload. rewrite Hk. simpl.
  rewrite requests_app, saved_app. simpl. rewrite !app_nil_r. done.
Qed.

Lemma handleDownload_not_available_witness :
  log (exec (handleDownload PdfKind (unstored_item "7" "https://x.org/a.pdf"))
         fresh_world).1
  = [Alert (js "PDF not available for download")].
Proof.
  apply (handleDownload_not_available PdfKind
           (unstored_item "7" "https://x.org/a.pdf") fresh_world).
  reflexivity.
Defined.

(** C5.  [fetchVideos] / [fetchPDFs]: the call sets [loading] and issues the
    list request without touching the items; when the request is rejected,
    the items are the ones the component holds at that moment, [loading] is
    cleared, and the handler completes normally (the error is logged to the
    console, not rethrown). *)
Theorem fetchItems_failure (k : Kind) (w wmid : World) (e : list N) :
  items (manager (exec (fetchItems k) w).1) = items (manager w)
  ∧ loading (manager (exec (fetchItems k) w).1) = true
  ∧ (resume (Reject e) (exec (fetchItems k) w).2 wmid).2 = Return tt
  ∧ items (manager (resume (Reject e) (exec (fetchItems k) w).2 wmid).1)
    = items (manager wmid)
  ∧ loading (manager (resume (Reject e) (exec (fetchItems k) w).2 wmid).1) = false
  ∧ log (resume (Reject e) (exec (fetchItems k) w).2 wmid).1
    = log wmid ++ [ConsoleError (js (fetch_failed k)) e]
  ∧ items (manager (run (fetchItems k) [Reject e] w).1) = items (manager w)
  ∧ loading (manager (run (fetchItems k) [Reject e] w).1) = false.
Proof. destruct k; done. Qed.

(** The successful fetch, for comparison: the items are replaced wholesale. *)
Lemma fetchItems_success (k : Kind) (w wmid : World) (data : list Artifact) :
  (resume (Fulfil (RespArtifacts data)) (exec (fetchItems k) w).2 wmid).2 = Return tt
  ∧ items (manager (resume (Fulfil (RespArtifacts data)) (exec (fetchItems k) w).2 wmid).1)
    = data
  ∧ loading (manager (resume (Fulfil (RespArtifacts data)) (exec (fetchItems k) w).2 wmid).1)
    = false.
Proof. destruct k; done. Qed.

(** C8.  The name under which [handleDownload] saves a payload, evaluated.
    With no explicit file name the code takes what follows the last [/] of
    the URL string as it stands, so the two examples of the claim come out
    as stated, and an empty tail gives [video_<id>.mp4] or
    [document_<id>.pdf].  But the URL is not parsed: for a URL without a
    path the host is taken, and a query string is part of the tail or, when
    it holds a [/], supplies it. *)
Theorem download_name_splits_raw_url (item : list N) :
  download_name PdfKind (unnamed item (js "https://x.org/report.pdf")) = js "report.pdf"
  ∧ download_name PdfKind (unnamed item (js "https://x.org/"))
    = js "document_" ++ item ++ js ".pdf"
  ∧ download_name VideoKind (unnamed item (js "https://x.org/"))
    = js "video_" ++ item ++ js ".mp4"
  ∧ download_name PdfKind (unnamed item (js "https://x.org")) = js "x.org"
  ∧ download_name PdfKind (unnamed item (js "https://x.org/report.pdf?sig=a/b")) = js "b"
  ∧ download_name PdfKind (unnamed item (js "https://x.org/report.pdf?v=2"))
    = js "report.pdf?v=2".
Proof. repeat split. Qed.

Lemma displayed_render (k : Kind) (m : ManagerState.t) :
  loading m = false → displayed (render k m) = visible k (items m).
Proof.
  intros Hl. unfold render. rewrite Hl.
  destruct (items m) as [|a l]; [by destruct k |].
  cbn [length Nat.eqb displayed]. apply card_item_cards.
Qed.

(** C1 as the code has it.  [handleDownload] has no in-flight guard.  For
    an item with an object name, a call marks the item busy, issues the
    payload request and is suspended on it, whether or not the item was
    busy already, and a payload that arrives is saved.  So of two
    overlapping calls for one item neither is turned away: two requests are
    issued, no alert is raised, and when both payloads have arrived, in
    either order, both have been saved.  The only use the code makes of the
    in-flight set is in the card of the item: its download button is
    disabled exactly while the id is in the set of the view that renders
    it. *)
Theorem handleDownload_unguarded (k : Kind) (a : Artifact) (w wmid : World)
    (b b' : list N) (m : ManagerState.t) :
  truthy_opt (minio_object_name a) = true →
  let first := exec (handleDownload k a) w in
  let second := exec (handleDownload k a) first.1 in
  let in_order :=
    resume (Fulfil (RespBlob b')) second.2
      (resume (Fulfil (RespBlob b)) first.2 second.1).1 in
  let reversed :=
    resume (Fulfil (RespBlob b)) first.2
      (resume (Fulfil (RespBlob b')) second.2 second.1).1 in
  requests (log first.1) = requests (log w) ++ [Get_download k (id a)]
  ∧ alerts (log first.1) = alerts (log w)
  ∧ isBusy (id a) (manager first.1) = true
  ∧ saved (log (resume (Fulfil (RespBlob b)) first.2 wmid).1)
    = saved (log wmid) ++ [(b, download_name k a)]
  ∧ requests (log second.1)
    = requests (log w) ++ [Get_download k (id a); Get_download k (id a)]
  ∧ alerts (log in_order.1) = alerts (log w)
  ∧ saved (log in_order.1)
    = saved (log w) ++ [(b, download_name k a); (b', download_name k a)]
  ∧ saved (log reversed.1)
    = saved (log w) ++ [(b', download_name k a); (b, download_name k a)]
  ∧ download_button (card m a) = Some (isBusy (id a) m).
Proof.
  intros Hk. unfold card, handleDownload. rewrite Hk. simpl.
  destruct k; simpl;
    rewrite <- !app_assoc, !requests_app, !alerts_app, !saved_app; simpl;
    rewrite !app_nil_r;
    (repeat split; [apply isBusy_add]).
Qed.

Lemma handleDownload_unguarded_witness :
  saved
    (log (resume (Fulfil (RespBlob [2]))
            (exec (handleDownload PdfKind (stored_item "7" "https://x.org/report.pdf"))
               (exec (handleDownload PdfKind
                        (stored_item "7" "https://x.org/report.pdf"))
                  fresh_world).1).2
            (resume (Fulfil (RespBlob [1]))
               (exec (handleDownload PdfKind
                        (stored_item "7" "https://x.org/report.pdf"))
                  fresh_world).2
               (exec (handleDownload PdfKind
                        (stored_item "7" "https://x.org/report.pdf"))
                  (exec (handleDownload PdfKind
                           (stored_item "7" "https://x.org/report.pdf"))
                     fresh_world).1).1).1).1)
  = saved (log fresh_world)
    ++ [([1], download_name PdfKind (stored_item "7" "https://x.org/report.pdf"));
        ([2], download_name PdfKind (stored_item "7" "https://x.org/report.pdf"))].
Proof.
  apply (handleDownload_unguarded PdfKind
           (stored_item "7" "https://x.org/report.pdf")
           fresh_world fresh_world [1] [2] ManagerState.initial).
  reflexivity.
Defined.

(** C1, counterexample.  Two overlapping downloads of the same document:
    the second call is made while the item is busy, yet it is not turned
    away (no alert, a second payload request), and when both payloads
    arrive both are saved: two file saves, not one. *)
Lemma handleDownload_overlap_saves_twice :
  let a := stored_item "7" "https://x.org/report.pdf" in
  let first := exec (handleDownload PdfKind a) fresh_world in
  let second := exec (handleDownload PdfKind a) first.1 in
  let first_done := resume (Fulfil (RespBlob [1; 2])) first.2 second.1 in
  let second_done := resume (Fulfil (RespBlob [1; 2])) second.2 first_done.1 in
  isBusy (id a) (manager first.1) = true
  ∧ requests (log second.1)
    = [Get_download PdfKind (js "7"); Get_download PdfKind (js "7")]
  ∧ alerts (log second_done.1) = []
  ∧ saved (log second_done.1)
    = [([1; 2], js "report.pdf"); ([1; 2], js "report.pdf")]
  ∧ length (saved (log second_done.1)) ≠ 1%nat.
Proof. vm_compute. repeat split; discriminate. Qed.

(** C10.  Once loaded, the video view shows the first three videos at most
    while its heading counts them all; the PDF view shows every PDF. *)
Theorem render_shows_first_three_videos (m : ManagerState.t) :
  loading m = false →
  heading (render VideoKind m) = Some (length (items m))
  ∧ displayed (render VideoKind m) = take 3%nat (items m)
  ∧ length (displayed (render VideoKind m)) = Nat.min 3 (length (items m))
  ∧ heading (render PdfKind m) = Some (length (items m))
  ∧ displayed (render PdfKind m) = items m.
Proof.
  intros Hl. rewrite !displayed_render by done. simpl visible.
  unfold render. rewrite Hl. repeat split. apply length_take.
Qed.

Lemma render_shows_first_three_videos_witness :
  displayed (render VideoKind loaded_videos)
  = [stored_item "1" "https://x.org/a.mp4"; stored_item "2" "https://x.org/b.mp4";
     unstored_item "3" "https://x.org/c.mp4"]
  ∧ heading (render VideoKind loaded_videos) = Some 4%nat.
Proof.
  split; apply (render_shows_first_three_videos loaded_videos); reflexivity.
Defined.

End ManagerFacts.

(* ===================================================================== *)
(** ** Properties of the submission form *)
(* ===================================================================== *)

Section ScraperFacts.
Import ScraperState ScraperInterface.

Lemma kept_blank (l : list (list N)) :
  Forall (λ entry, trim entry = []) l → kept l = [].
Proof.
  induction 1 as [|x l Hx _ IH]; [done |].
  unfold kept in *. simpl. by rewrite Hx.
Qed.

Lemma kept_spec (l : list (list N)) (entry : list N) :
  entry ∈ kept l ↔ entry ∈ l ∧ trim entry ≠ [].
Proof.
  unfold kept. rewrite !list_elem_of_In, filter_In.
  destruct (trim entry); simpl; intuition congruence.
Qed.

(** Case analysis on the two filtered sequences of [handleSubmit]. *)
Ltac submit_cases w :=
  unfold App.handleSubmit, handleSubmit; cbn [exec];
  fold (kept (urls (scraper_ui w))); fold (kept (keywords (scraper_ui w)));
  destruct (kept (urls (scraper_ui w))) as [|? ?] eqn:?,
           (kept (keywords (scraper_ui w))) as [|? ?] eqn:?.

(** C6.  When every URL entry and every keyword entry is blank,
    [handleSubmit] only raises the "enter at least one" alert and returns:
    no request is issued (and the [onScrapeStart] callback is not called,
    whatever it is). *)
Theorem handleSubmit_empty_request (onScrapeStart : Async unit) (w : World) :
  Forall (λ entry, trim entry = []) (urls (scraper_ui w)) →
  Forall (λ entry, trim entry = []) (keywords (scraper_ui w)) →
  exec (handleSubmit onScrapeStart) w
  = (emit (Alert (js "Please enter at least one URL or keyword")) w, Return tt)
  ∧ requests (log (exec (handleSubmit onScrapeStart) w).1) = requests (log w).
Proof.
  intros Hu Hk. apply kept_blank in Hu, Hk. unfold kept in Hu, Hk.
  unfold handleSubmit. cbn [exec]. rewrite Hu, Hk. simpl.
  by rewrite requests_app, app_nil_r.
Qed.

Lemma handleSubmit_empty_request_witness :
  requests
    (log (exec (handleSubmit App.handleScrapeStart)
            (filled [js "  "; js ""] [js " "] opened)).1)
  = requests (log (filled [js "  "; js ""] [js " "] opened)).
Proof.
  apply (handleSubmit_empty_request App.handleScrapeStart
           (filled [js "  "; js ""] [js " "] opened)).
  - repeat constructor.
  - repeat constructor.
Defined.

(** C3 as the code has it.  A submission with a non-blank entry transmits
    one request holding exactly the entries that are not blank after
    trimming, in order and as they were entered (not trimmed). *)
Theorem handleSubmit_transmits_kept (w : World) :
  kept (urls (scraper_ui w)) ≠ [] ∨ kept (keywords (scraper_ui w)) ≠ [] →
  requests (log (exec App.handleSubmit w).1)
  = requests (log w)
    ++ [Post_scrape {| req_urls := kept (urls (scraper_ui w));
                       req_keywords := kept (keywords (scraper_ui w)) |}]
  ∧ (∀ entry, entry ∈ kept (urls (scraper_ui w))
              ↔ entry ∈ urls (scraper_ui w) ∧ trim entry ≠ [])
  ∧ (∀ entry, entry ∈ kept (keywords (scraper_ui w))
              ↔ entry ∈ keywords (scraper_ui w) ∧ trim entry ≠ []).
Proof.
  intros H. split; [| split; intros; apply kept_spec].
  submit_cases w; [destruct H; congruence | ..];
    cbn -[trim kept]; by rewrite requests_app.
Qed.

Lemma handleSubmit_transmits_kept_witness :
  requests
    (log (exec App.handleSubmit (filled [js " "; js "http://a"] [js ""] opened)).1)
  = [Post_scrape {| req_urls := [js "http://a"]; req_keywords := [] |}].
Proof.
  apply (handleSubmit_transmits_kept (filled [js " "; js "http://a"] [js ""] opened)).
  left. vm_compute. discriminate.
Defined.

(** C3, counterexample.  An entry with surrounding white space is
    transmitted as entered, not trimmed. *)
Lemma handleSubmit_does_not_trim :
  let w := filled [js " http://a"] [js ""] opened in
  requests (log (exec App.handleSubmit w).1)
  = [Post_scrape {| req_urls := [js " http://a"]; req_keywords := [] |}]
  ∧ trimmed_entries (urls (scraper_ui w)) = [js "http://a"]
  ∧ requests (log (exec App.handleSubmit w).1)
    ≠ [Post_scrape {| req_urls := trimmed_entries (urls (scraper_ui w));
                      req_keywords := trimmed_entries (keywords (scraper_ui w)) |}].
Proof. vm_compute. repeat split. discriminate. Qed.

(** C2 as the code has it.  [handleSubmit] calls [onScrapeStart], which
    creates the two-second refresh timer, as soon as the input has passed
    the emptiness check and before the request is sent: a submission with a
    non-blank entry creates exactly that timer, a submission of blank
    entries creates none, and the settlement of the request, accepted or
    failed, neither creates nor removes a timer. *)
Theorem handleSubmit_schedules_refresh (w wmid : World) (s : Settlement) :
  timers (exec App.handleSubmit w).1
  = timers w
    ++ match kept (urls (scraper_ui w)), kept (keywords (scraper_ui w)) with
       | [], [] => []
       | _, _ => [refresh_timer w]
       end
  ∧ timers (resume s (exec App.handleSubmit w).2 wmid).1 = timers wmid.
Proof.
  submit_cases w; cbn -[trim kept]; rewrite ?app_nil_r; (split; [done |]);
    destruct s as [[?|?|?]|?]; done.
Qed.

(** C2, counterexample.  A submission the transport rejects: the failure
    is reported, and the refresh timer created before the request was sent
    is pending all the same and fires two seconds later. *)
Lemma handleSubmit_failed_still_refreshes :
  let w := filled [js "http://a"] [js ""] opened in
  let failed := run App.handleSubmit [Reject (js "Network Error")] w in
  failed.2 = Return tt
  ∧ alerts (log failed.1) = [js "Failed to start scraping. Please try again."]
  ∧ App.refresh_timers w = []
  ∧ App.refresh_timers failed.1
    = [{| timer_id := 1; due := 4000; callback := BumpRefresh |}]
  ∧ App.refresh_timers failed.1 ≠ []
  ∧ AppState.refreshTrigger (app failed.1) = 0
  ∧ AppState.refreshTrigger (app (App.elapse 2000 failed.1)) = 1.
Proof. vm_compute. repeat split; discriminate. Qed.

End ScraperFacts.

(* ===================================================================== *)
(** ** Properties of the delayed refresh *)
(* ===================================================================== *)

Section AppFacts.
Import AppState App.

(** Mounting a view touches neither [App]'s state nor the timers. *)
Lemma mount_frame (e : option Element) (w : World) :
  app (mount e w) = app w ∧ timers (mount e w) = timers w
  ∧ clock (mount e w) = clock w ∧ next_timer (mount e w) = next_timer w.
Proof. destruct e as [[]|]; done. Qed.

Lemma mount_requests_log (a : AppState.t) (w : World) :
  requests (log (mount (Some (renderContent a)) w))
  = requests (log w) ++ mount_requests (activeTab a).
Proof.
  unfold renderContent.
  destruct (activeTab a); simpl; rewrite ?requests_app, ?app_nil_r; done.
Qed.


Lemma elapse_single (t : Timer) (w : World) (ms : N) :
  timers w = [t] →
  due t ≤ clock w + ms →
  elapse ms w = fire t (pending_after ms w)
  ∧ timers (pending_after ms w) = [].
Proof.
  intros Ht Hd. apply N.leb_le in Hd.
  unfold elapse, pending_after. simpl. rewrite Ht. simpl. by rewrite Hd.
Qed.

End AppFacts.

(* ===================================================================== *)
(** ** Further properties: names and blank entries *)
(* ===================================================================== *)

Section StringFacts.
Import Manager.

Lemma trimStart_nil (s : list N) :
  trimStart s = [] ↔ forallb is_white_space s = true.
Proof.
  induction s as [|c s IH]; simpl; [done |].
  destruct (is_white_space c); simpl; [done |]. split; discriminate.
Qed.

Lemma trimStart_white (s : list N) :
  forallb is_white_space (trimStart s) = forallb is_white_space s.
Proof.
  induction s as [|c s IH]; simpl; [done |].
  destruct (is_white_space c) eqn:E; simpl; [done | by rewrite E].
Qed.

Lemma forallb_reverse (p : N → bool) (s : list N) :
  forallb p (reverse s) = forallb p s.
Proof.
  induction s as [|c s IH]; [done |].
  rewrite reverse_cons, forallb_app, IH. simpl.
  rewrite andb_true_r. apply andb_comm.
Qed.

Lemma trim_blank (s : list N) :
  truthy (trim s) = negb (forallb is_white_space s).
Proof.
  destruct (forallb is_white_space s) eqn:E; simpl.
  - assert (H : trim s = []); [| by rewrite H].
    unfold trim, trimEnd.
    assert (H : trimStart (reverse (trimStart s)) = []); [| by rewrite H].
    apply trimStart_nil. by rewrite forallb_reverse, trimStart_white.
  - destruct (trim s) as [|c t] eqn:Et; [| done]. exfalso.
    unfold trim, trimEnd in Et.
    apply (f_equal reverse) in Et. rewrite reverse_involutive in Et.
    change (reverse []) with (@nil N) in Et.
    apply trimStart_nil in Et.
    rewrite forallb_reverse, trimStart_white in Et. congruence.
Qed.

(** X1.  The entries [handleSubmit] keeps are exactly those with at least
    one code unit that is not white space, in their order. *)
Theorem kept_has_ink (l : list (list N)) :
  kept l = List.filter has_ink l.
Proof.
  unfold kept. induction l as [|s l IH]; simpl; [done |].
  rewrite IH, trim_blank. unfold has_ink.
  assert (H : negb (forallb is_white_space s)
              = existsb (λ c, negb (is_white_space c)) s).
  { clear. induction s as [|c s IH]; simpl; [done |].
    rewrite <- IH. by destruct (is_white_space c). }
  by rewrite H.
Qed.

Lemma split_nonempty (sep : N) (s : list N) : split sep s ≠ [].
Proof.
  induction s as [|c s IH]; simpl; [done |].
  destruct (c =? sep); [done |]. by destruct (split sep s).
Qed.

(** The shape of [s.split(sep)]: one segment, [s] itself, when [s] has no
    separator; otherwise the last segment is what follows the last
    separator. *)
Lemma split_shape (sep : N) (s : list N) :
  (split sep s = [s] ∧ sep ∉ s)
  ∨ (∃ pre seg, s = pre ++ sep :: seg ∧ (sep ∉ seg)
                ∧ last (split sep s) = Some seg
                ∧ (1 < length (split sep s))%nat).
Proof.
  induction s as [|c s IH]; simpl.
  - left. split; [done | apply not_elem_of_nil].
  - destruct (N.eqb_spec c sep) as [-> | Hne].
    + right. destruct IH as [[Hs Hn] | (pre & seg & -> & Hn & Hl & Hlen)].
      * exists [], s. rewrite Hs. repeat split; simpl; [done | lia].
      * exists (sep :: pre), seg. repeat split; [done | | simpl; lia].
        destruct (split sep (pre ++ sep :: seg)) eqn:E; [simpl in Hlen; lia |].
        done.
    + destruct IH as [[Hs Hn] | (pre & seg & -> & Hn & Hl & Hlen)].
      * left. rewrite Hs. split; [done |].
        rewrite not_elem_of_cons. split; [congruence | done].
      * right. exists (c :: pre), seg.
        destruct (split sep (pre ++ sep :: seg)) as [|seg0 [|seg1 rest]] eqn:E;
          simpl in Hlen; try lia.
        repeat split; [done | done | simpl; lia].
Qed.

(** X2.  The name under which a payload is saved is never empty. *)
Theorem download_name_never_empty (k : Kind) (a : Artifact) :
  download_name k a ≠ [].
Proof.
  unfold download_name.
  destruct (filename a) as [[|c s]|]; simpl; try done;
    (destruct (pop (split slash (url a))) as [[|c' s']|]; simpl; [| done |];
     destruct k; done).
Qed.

(** X3.  Without an explicit file name, a name taken from the URL is what
    follows the last [/] of the URL (the whole URL when it has none), and
    so contains no [/]. *)
Theorem download_name_follows_last_slash (k : Kind) (a : Artifact) :
  truthy_opt (filename a) = false →
  download_name k a ≠ fallback_name k (id a) →
  (slash ∉ download_name k a)
  ∧ (url a = download_name k a
     ∨ ∃ dir, url a = dir ++ slash :: download_name k a).
Proof.
  intros Hf Hn. unfold download_name in *.
  assert (Hor : ∀ d, or_else (filename a) d = d).
  { intros d. destruct (filename a) as [[|c s]|]; done. }
  rewrite Hor in *. unfold pop in *.
  destruct (split_shape slash (url a))
    as [[Hs Hno] | (pre & seg & Hu & Hno & Hl & _)].
  - rewrite Hs in *. simpl in *.
    destruct (url a) as [|c s]; simpl in *; [done |]. split; [done | by left].
  - rewrite Hl in *. destruct seg as [|c s]; simpl in *; [done |].
    split; [done |]. right. by exists pre.
Qed.

Lemma download_name_follows_last_slash_witness :
  (slash ∉ download_name PdfKind (stored_item "7" "https://x.org/a/report.pdf"))
  ∧ (url (stored_item "7" "https://x.org/a/report.pdf")
     = download_name PdfKind (stored_item "7" "https://x.org/a/report.pdf")
     ∨ ∃ dir, url (stored_item "7" "https://x.org/a/report.pdf")
              = dir ++ slash
                  :: download_name PdfKind (stored_item "7" "https://x.org/a/report.pdf")).
Proof.
  apply (download_name_follows_last_slash PdfKind
           (stored_item "7" "https://x.org/a/report.pdf")).
  - reflexivity.
  - vm_compute. discriminate.
Defined.

End StringFacts.

(* ===================================================================== *)
(** ** Further properties of the list views *)
(* ===================================================================== *)

Section MoreManagerFacts.
Import ManagerState Manager.

Lemma isBusy_add_other (item other : list N) (s : gset (list N))
    (i : list Artifact) (l : bool) :
  item ≠ other →
  isBusy item {| items := i; loading := l; downloading := s ∪ {[other]} |}
  = bool_decide (item ∈ s).
Proof.
  intros Hne. unfold isBusy; simpl. apply bool_decide_ext.
  rewrite elem_of_union, elem_of_singleton. tauto.
Qed.

Lemma isBusy_delete_other (item other : list N) (s : gset (list N))
    (i : list Artifact) (l : bool) :
  item ≠ other →
  isBusy item {| items := i; loading := l; downloading := s ∖ {[other]} |}
  = bool_decide (item ∈ s).
Proof.
  intros Hne. unfold isBusy; simpl. apply bool_decide_ext.
  rewrite elem_of_difference, elem_of_singleton. tauto.
Qed.

(** X4.  A download whose payload request is rejected saves nothing: the
    error goes to the console, the operator gets the "Failed to download"
    alert, and the handler completes normally. *)
Theorem handleDownload_failure_reported (k : Kind) (a : Artifact)
    (w wmid : World) (e : list N) :
  truthy_opt (minio_object_name a) = true →
  (resume (Reject e) (exec (handleDownload k a) w).2 wmid).2 = Return tt
  ∧ log (resume (Reject e) (exec (handleDownload k a) w).2 wmid).1
    = log wmid ++ [ConsoleError (js (download_failed_log k)) e;
                   Alert (js (download_failed k))]
  ∧ saved (log (resume (Reject e) (exec (handleDownload k a) w).2 wmid).1)
    = saved (log wmid).
Proof.
  intros Hk. unfold handleDownload. rewrite Hk. simpl.
  destruct k; simpl; rewrite <- !app_assoc, saved_app, app_nil_r; done.
Qed.

Lemma handleDownload_failure_reported_witness :
  saved (log (resume (Reject (js "timeout"))
                (exec (handleDownload VideoKind
                         (stored_item "7" "https://x.org/a.mp4")) fresh_world).2
                fresh_world).1)
  = saved (log fresh_world).
Proof.
  apply (handleDownload_failure_reported VideoKind
           (stored_item "7" "https://x.org/a.mp4") fresh_world fresh_world
           (js "timeout")).
  reflexivity.
Defined.

(** X5.  A download touches nothing but its own mark: at its start and at
    its completion, with a payload or an error, the items, the loading flag
    and the busy state of every other item stay as they are. *)
Theorem handleDownload_frame (k : Kind) (a : Artifact) (w wmid : World)
    (s : Settlement) (other : list N) :
  other ≠ id a →
  isBusy other (manager (exec (handleDownload k a) w).1) = isBusy other (manager w)
  ∧ items (manager (exec (handleDownload k a) w).1) = items (manager w)
  ∧ loading (manager (exec (handleDownload k a) w).1) = loading (manager w)
  ∧ isBusy other (manager (resume s (exec (handleDownload k a) w).2 wmid).1)
    = isBusy other (manager wmid)
  ∧ items (manager (resume s (exec (handleDownload k a) w).2 wmid).1)
    = items (manager wmid)
  ∧ loading (manager (resume s (exec (handleDownload k a) w).2 wmid).1)
    = loading (manager wmid).
Proof.
  intros Hne. unfold handleDownload.
  destruct (truthy_opt (minio_object_name a)); simpl; [| done].
  destruct k; simpl;
    (split; [by apply isBusy_add_other |]);
    destruct s as [[?|?|?]|?]; simpl; repeat split;
    by apply isBusy_delete_other.
Qed.

Lemma handleDownload_frame_witness :
  isBusy (js "8")
    (manager (exec (handleDownload PdfKind (stored_item "7" "https://x.org/a.pdf"))
                (showing [] {[js "8"]} fresh_world)).1)
  = isBusy (js "8") (manager (showing [] {[js "8"]} fresh_world)).
Proof.
  apply (handleDownload_frame PdfKind (stored_item "7" "https://x.org/a.pdf")
           (showing [] {[js "8"]} fresh_world) fresh_world
           (Reject []) (js "8")).
  vm_compute. discriminate.
Defined.

(** X6.  The in-flight set is a set, not a count: when two downloads of one
    item overlap, the first to settle clears the mark, so the item shows as
    idle and its button is enabled again while the second download is still
    waiting for its payload. *)
Theorem handleDownload_overlap_clears_mark_early (k : Kind) (a : Artifact)
    (w : World) (s : Settlement) :
  truthy_opt (minio_object_name a) = true →
  is_Some (fit TBlob s) →
  let first := exec (handleDownload k a) w in
  let second := exec (handleDownload k a) first.1 in
  let first_done := resume s first.2 second.1 in
  isBusy (id a) (manager second.1) = true
  ∧ (∃ rest, second.2 = Await (Get_download k (id a)) rest)
  ∧ isBusy (id a) (manager first_done.1) = false
  ∧ download_button (card (manager first_done.1) a) = Some false.
Proof.
  intros Hk [o Ho]. unfold card, handleDownload. rewrite Hk. simpl.
  destruct k; simpl; rewrite Ho;
    (split; [apply isBusy_add |]); (split; [eauto |]);
    destruct o; simpl; rewrite isBusy_delete; done.
Qed.

Lemma handleDownload_overlap_clears_mark_early_witness :
  let a := stored_item "7" "https://x.org/report.pdf" in
  let first := exec (handleDownload PdfKind a) fresh_world in
  let second := exec (handleDownload PdfKind a) first.1 in
  isBusy (id a) (manager (resume (Fulfil (RespBlob [1])) first.2 second.1).1) = false.
Proof.
  apply (handleDownload_overlap_clears_mark_early PdfKind
           (stored_item "7" "https://x.org/report.pdf") fresh_world
           (Fulfil (RespBlob [1]))).
  - reflexivity.
  - simpl. eauto.
Defined.

(** X7.  A refresh that succeeds replaces the items by the list received,
    whatever was held before (a full snapshot, no merge), and clears
    [loading]; no refresh, successful or failed, touches the in-flight set
    or raises an alert. *)
Theorem fetchItems_snapshot (k : Kind) (w wmid : World) (data : list Artifact)
    (s : Settlement) :
  items (manager (resume (Fulfil (RespArtifacts data)) (exec (fetchItems k) w).2 wmid).1)
  = data
  ∧ loading (manager (resume (Fulfil (RespArtifacts data)) (exec (fetchItems k) w).2 wmid).1)
    = false
  ∧ downloading (manager (exec (fetchItems k) w).1) = downloading (manager w)
  ∧ downloading (manager (resume s (exec (fetchItems k) w).2 wmid).1)
    = downloading (manager wmid)
  ∧ alerts (log (exec (fetchItems k) w).1) = alerts (log w)
  ∧ alerts (log (resume s (exec (fetchItems k) w).2 wmid).1) = alerts (log wmid).
Proof.
  destruct k; simpl; rewrite !alerts_app, !app_nil_r;
    (repeat split; [destruct s as [[?|?|?]|?]; done |]);
    destruct s as [[?|?|?]|?]; simpl; rewrite ?alerts_app, ?app_nil_r; done.
Qed.

(** X8.  Overlapping refreshes are not ordered: the response that arrives
    last determines the items, also when it answers the older request; and
    the first response to arrive clears [loading] while the other request
    is still pending. *)
Theorem fetchItems_last_response_wins (k : Kind) (w : World)
    (older newer : list Artifact) :
  let first := exec (fetchItems k) w in
  let second := exec (fetchItems k) first.1 in
  let in_order :=
    resume (Fulfil (RespArtifacts newer)) second.2
      (resume (Fulfil (RespArtifacts older)) first.2 second.1).1 in
  let reversed :=
    resume (Fulfil (RespArtifacts older)) first.2
      (resume (Fulfil (RespArtifacts newer)) second.2 second.1).1 in
  items (manager in_order.1) = newer
  ∧ items (manager reversed.1) = older
  ∧ loading (manager (resume (Fulfil (RespArtifacts older)) first.2 second.1).1)
    = false
  ∧ requests (log second.1) = requests (log w) ++ [Get_list k; Get_list k].
Proof.
  destruct k; simpl; rewrite <- !app_assoc, requests_app; simpl;
    rewrite ?app_nil_r; done.
Qed.

(** X9.  While a refresh is pending the view shows the spinner only, with
    no card and no button; once the request has settled it shows the
    listing, with the refresh button enabled. *)
Theorem render_during_refresh (k : Kind) (w : World) (s : Settlement) :
  is_Some (fit TArtifacts s) →
  render k (manager (exec (fetchItems k) w).1) = Spinner
  ∧ buttons (render k (manager (exec (fetchItems k) w).1)) = []
  ∧ ∃ n body,
      render k (manager (run (fetchItems k) [s] w).1) = Listing n false body.
Proof.
  intros [o Ho]. unfold run.
  destruct k; simpl; rewrite Ho; (split; [done |]); (split; [done |]);
    destruct o; simpl; unfold render; simpl; eauto.
Qed.

Lemma render_during_refresh_witness :
  render VideoKind (manager (exec (fetchItems VideoKind) fresh_world).1) = Spinner.
Proof.
  apply (render_during_refresh VideoKind fresh_world (Reject [])).
  simpl. eauto.
Defined.

(** X10.  Every download button the view shows belongs to an item for
    which [handleDownload] goes on to request the payload: the "not
    available" alert cannot be reached from the rendered cards.  A card
    without a button carries the "being processed" notice instead. *)
Theorem rendered_buttons_fetch (k : Kind) (m : ManagerState.t) (c : Card)
    (w : World) :
  c ∈ buttons (render k m) →
  (download_button c = None → processing_notice c = true)
  ∧ (download_button c ≠ None →
     processing_notice c = false
     ∧ requests (log (exec (handleDownload k (card_item c)) w).1)
       = requests (log w) ++ [Get_download k (id (card_item c))]
     ∧ alerts (log (exec (handleDownload k (card_item c)) w).1) = alerts (log w)).
Proof.
  intros Hc.
  assert (Hcard : ∃ a, c = card m a).
  { unfold render in Hc. destruct (loading m); [by apply elem_of_nil in Hc |].
    destruct (Nat.eqb (length (items m)) 0); [by apply elem_of_nil in Hc |].
    simpl in Hc. apply list_elem_of_fmap in Hc as (a & -> & _). eauto. }
  destruct Hcard as [a ->]. unfold card, handleDownload. simpl.
  destruct (truthy_opt (minio_object_name a)); simpl; [| done].
  split; [done |]. intros _. split; [done |].
  destruct k; simpl; rewrite requests_app, alerts_app, app_nil_r; done.
Qed.

Lemma rendered_buttons_fetch_witness :
  processing_notice (card loaded_videos (unstored_item "3" "https://x.org/c.mp4")) = true.
Proof.
  apply (rendered_buttons_fetch VideoKind loaded_videos
           (card loaded_videos (unstored_item "3" "https://x.org/c.mp4"))
           fresh_world).
  - vm_compute. do 2 right. left.
  - reflexivity.
Defined.

End MoreManagerFacts.

(* ===================================================================== *)
(** ** Further properties of the submission form *)
(* ===================================================================== *)

Section MoreScraperFacts.
Import ScraperState ScraperInterface ScraperRows.

Ltac submit_split w :=
  unfold App.handleSubmit, handleSubmit; cbn [exec];
  fold (kept (urls (scraper_ui w))); fold (kept (keywords (scraper_ui w)));
  destruct (kept (urls (scraper_ui w))) as [|? ?] eqn:?,
           (kept (keywords (scraper_ui w))) as [|? ?] eqn:?.

Lemma handleSubmit_requests (w : World) :
  requests (log (exec App.handleSubmit w).1)
  = requests (log w) ++ submission (urls (scraper_ui w)) (keywords (scraper_ui w)).
Proof.
  unfold submission. submit_split w; cbn -[trim kept];
    rewrite requests_app; simpl; by rewrite ?app_nil_r.
Qed.

(** X11.  Whatever the fulfilled response says, also a status other than
    accepted, the form treats it as success: the success dialog is shown,
    both row lists are reset to one empty row, [loading] is cleared and no
    alert is raised.  While the request is pending [loading] is set. *)
Theorem handleSubmit_fulfilled_resets (w wmid : World) (answer : ScrapeStatus) :
  kept (urls (scraper_ui w)) ≠ [] ∨ kept (keywords (scraper_ui w)) ≠ [] →
  loading (scraper_ui (exec App.handleSubmit w).1) = true
  ∧ (resume (Fulfil (RespStatus answer)) (exec App.handleSubmit w).2 wmid).2
    = Return tt
  ∧ scraper_ui (resume (Fulfil (RespStatus answer)) (exec App.handleSubmit w).2 wmid).1
    = {| urls := [[]]; keywords := [[]]; loading := false; showSuccess := true |}
  ∧ log (resume (Fulfil (RespStatus answer)) (exec App.handleSubmit w).2 wmid).1
    = log wmid.
Proof.
  intros H. submit_split w; [destruct H; congruence | ..]; done.
Qed.

Lemma handleSubmit_fulfilled_resets_witness :
  scraper_ui
    (run App.handleSubmit
       [Fulfil (RespStatus {| status := js "error"; message := js "queue full";
                              task_id := None |})]
       (filled [js "http://a"] [js ""] opened)).1
  = {| urls := [[]]; keywords := [[]]; loading := false; showSuccess := true |}.
Proof.
  apply (handleSubmit_fulfilled_resets (filled [js "http://a"] [js ""] opened)).
  left. vm_compute. discriminate.
Defined.

(** X12.  A submission the transport rejects leaves the rows as they are,
    so that they can be submitted again, does not show the success dialog,
    clears [loading], logs the error and raises the "Failed to start
    scraping" alert; the handler completes normally. *)
Theorem handleSubmit_rejected_keeps_rows (w wmid : World) (e : list N) :
  kept (urls (scraper_ui w)) ≠ [] ∨ kept (keywords (scraper_ui w)) ≠ [] →
  (resume (Reject e) (exec App.handleSubmit w).2 wmid).2 = Return tt
  ∧ urls (scraper_ui (resume (Reject e) (exec App.handleSubmit w).2 wmid).1)
    = urls (scraper_ui wmid)
  ∧ keywords (scraper_ui (resume (Reject e) (exec App.handleSubmit w).2 wmid).1)
    = keywords (scraper_ui wmid)
  ∧ showSuccess (scraper_ui (resume (Reject e) (exec App.handleSubmit w).2 wmid).1)
    = showSuccess (scraper_ui wmid)
  ∧ loading (scraper_ui (resume (Reject e) (exec App.handleSubmit w).2 wmid).1)
    = false
  ∧ log (resume (Reject e) (exec App.handleSubmit w).2 wmid).1
    = log wmid ++ [ConsoleError (js "Failed to start scraping:") e;
                   Alert (js "Failed to start scraping. Please try again.")].
Proof.
  intros H. submit_split w; [destruct H; congruence | ..];
    cbn -[trim kept js]; rewrite <- !app_assoc; done.
Qed.

Lemma handleSubmit_rejected_keeps_rows_witness :
  urls (scraper_ui
          (run App.handleSubmit [Reject (js "Network Error")]
             (filled [js "http://a"; js ""] [js "cats"] opened)).1)
  = [js "http://a"; js ""].
Proof.
  apply (handleSubmit_rejected_keeps_rows
           (filled [js "http://a"; js ""] [js "cats"] opened)
           (exec App.handleSubmit
              (filled [js "http://a"; js ""] [js "cats"] opened)).1
           (js "Network Error")).
  left. vm_compute. discriminate.
Defined.

Lemma filter_from_above {A} (a : list A) (j i : nat) :
  (i < j)%nat → filter_from j (λ j0 _, negb (Nat.eqb j0 i)) a = a.
Proof.
  revert j. induction a as [|x a IH]; intros j Hij; simpl; [done |].
  destruct (Nat.eqb_spec j i); [lia |]. simpl. f_equal. apply IH. lia.
Qed.

Lemma filter_from_delete {A} (a : list A) (index i : nat) :
  filter_from i (λ j _, negb (Nat.eqb j (i + index))) a = delete index a.
Proof.
  revert index i. induction a as [|x a IH]; intros index i; simpl.
  - by destruct index.
  - destruct index as [|index]; simpl.
    + rewrite Nat.add_0_r, Nat.eqb_refl. simpl. apply filter_from_above. lia.
    + destruct (Nat.eqb_spec i (i + S index)); [lia |]. simpl. f_equal.
      replace (i + S index)%nat with (S i + index)%nat by lia. apply IH.
Qed.

Lemma filteri_delete {A} (a : list A) (index : nat) :
  filteri (λ j _, negb (Nat.eqb j index)) a = delete index a.
Proof. apply (filter_from_delete a index 0). Qed.

Lemma removeUrl_urls (w : World) (index : nat) :
  urls (scraper_ui (exec (removeUrl index) w).1)
  = if Nat.ltb 1 (length (urls (scraper_ui w)))
    then delete index (urls (scraper_ui w)) else urls (scraper_ui w).
Proof.
  unfold removeUrl. cbn [exec].
  destruct (Nat.ltb 1 (length (urls (scraper_ui w)))); simpl; [| done].
  apply filteri_delete.
Qed.

Lemma removeKeyword_keywords (w : World) (index : nat) :
  keywords (scraper_ui (exec (removeKeyword index) w).1)
  = if Nat.ltb 1 (length (keywords (scraper_ui w)))
    then delete index (keywords (scraper_ui w)) else keywords (scraper_ui w).
Proof.
  unfold removeKeyword. cbn [exec].
  destruct (Nat.ltb 1 (length (keywords (scraper_ui w)))); simpl; [| done].
  apply filteri_delete.
Qed.

Lemma delete_guarded_nonempty {A} (l : list A) (index : nat) :
  l ≠ [] → (if Nat.ltb 1 (length l) then delete index l else l) ≠ [].
Proof.
  intros Hl. destruct l as [|u [|u' us]]; simpl; try done.
  by destruct index as [|[|index]].
Qed.

Lemma removeUrl_nonempty (w : World) (index : nat) :
  urls (scraper_ui w) ≠ [] → urls (scraper_ui (exec (removeUrl index) w).1) ≠ [].
Proof. rewrite removeUrl_urls. apply delete_guarded_nonempty. Qed.

Lemma removeKeyword_nonempty (w : World) (index : nat) :
  keywords (scraper_ui w) ≠ [] →
  keywords (scraper_ui (exec (removeKeyword index) w).1) ≠ [].
Proof. rewrite removeKeyword_keywords. apply delete_guarded_nonempty. Qed.

(** X13.  [removeUrl] and [removeKeyword] never remove the last row: with
    one row left they change nothing, whatever the index; with more rows
    they remove exactly the row at the index and keep the others in order,
    and an index past the end removes nothing. *)
Theorem removeUrl_keeps_last_row (w : World) (index : nat) :
  urls (scraper_ui (exec (removeUrl index) w).1)
  = (if Nat.ltb 1 (length (urls (scraper_ui w)))
     then delete index (urls (scraper_ui w)) else urls (scraper_ui w))
  ∧ keywords (scraper_ui (exec (removeKeyword index) w).1)
    = (if Nat.ltb 1 (length (keywords (scraper_ui w)))
       then delete index (keywords (scraper_ui w)) else keywords (scraper_ui w))
  ∧ (urls (scraper_ui w) ≠ [] → urls (scraper_ui (exec (removeUrl index) w).1) ≠ [])
  ∧ (keywords (scraper_ui w) ≠ [] →
     keywords (scraper_ui (exec (removeKeyword index) w).1) ≠ [])
  ∧ ((length (urls (scraper_ui w)) ≤ index)%nat →
     urls (scraper_ui (exec (removeUrl index) w).1) = urls (scraper_ui w)).
Proof.
  rewrite removeUrl_urls, removeKeyword_keywords. repeat split.
  - apply delete_guarded_nonempty.
  - apply delete_guarded_nonempty.
  - intros Hle. destruct (Nat.ltb 1 (length (urls (scraper_ui w)))); [| done].
    apply list_eq. intros j. rewrite list_lookup_delete.
    destruct (decide (j < index)%nat) as [|Hge]; [done |].
    rewrite !lookup_ge_None_2; [done | lia | lia].
Qed.

Lemma removeUrl_keeps_last_row_witness :
  urls (scraper_ui (exec (removeUrl 5) (filled [js "a"; js "b"] [js ""] opened)).1)
  = [js "a"; js "b"].
Proof.
  apply (removeUrl_keeps_last_row (filled [js "a"; js "b"] [js ""] opened) 5).
  simpl. lia.
Defined.

Lemma dispatch_rows (e : FormEvent) (w : World) :
  urls (scraper_ui w) ≠ [] → keywords (scraper_ui w) ≠ [] →
  urls (scraper_ui (dispatch e w)) ≠ []
  ∧ keywords (scraper_ui (dispatch e w)) ≠ [].
Proof.
  intros Hu Hk. unfold dispatch, wired.
  destruct e as [|index|index value| |index|index value].
  - simpl. split; [| done]. by destruct (urls (scraper_ui w)).
  - destruct (Nat.ltb 1 (length (urls (scraper_ui w)))
              && Nat.ltb index (length (urls (scraper_ui w)))); [| done].
    split; [by apply removeUrl_nonempty |].
    unfold removeUrl. cbn [exec].
    by destruct (Nat.ltb 1 (length (urls (scraper_ui w)))).
  - destruct (Nat.ltb index (length (urls (scraper_ui w)))); [| done].
    simpl. split; [| done].
    intros H. apply (f_equal length) in H. rewrite length_insert in H.
    by destruct (urls (scraper_ui w)).
  - simpl. split; [done |]. by destruct (keywords (scraper_ui w)).
  - destruct (Nat.ltb 1 (length (keywords (scraper_ui w)))
              && Nat.ltb index (length (keywords (scraper_ui w)))); [| done].
    split; [| by apply removeKeyword_nonempty].
    unfold removeKeyword. cbn [exec].
    by destruct (Nat.ltb 1 (length (keywords (scraper_ui w)))).
  - destruct (Nat.ltb index (length (keywords (scraper_ui w)))); [| done].
    simpl. split; [done |].
    intros H. apply (f_equal length) in H. rewrite length_insert in H.
    by destruct (keywords (scraper_ui w)).
Qed.

(** X14.  The form never runs out of rows: starting with at least one URL
    row and one keyword row (it starts with one empty row of each), every
    sequence of adding, removing and editing rows through the rendered
    controls leaves at least one row of each. *)
Theorem rows_never_empty (es : list FormEvent) (w : World) :
  urls (scraper_ui w) ≠ [] →
  keywords (scraper_ui w) ≠ [] →
  urls (scraper_ui (dispatch_all es w)) ≠ []
  ∧ keywords (scraper_ui (dispatch_all es w)) ≠ [].
Proof.
  revert w. unfold dispatch_all.
  induction es as [|e es IH]; intros w Hu Hk; simpl; [done |].
  destruct (dispatch_rows e w Hu Hk). by apply IH.
Qed.

Lemma rows_never_empty_witness :
  urls (scraper_ui
          (dispatch_all [ClickAddUrl; ClickRemoveUrl 0; ClickRemoveUrl 0;
                         ChangeUrl 0 (js "http://a"); ClickRemoveUrl 0]
             opened)) ≠ [].
Proof.
  apply (rows_never_empty
           [ClickAddUrl; ClickRemoveUrl 0; ClickRemoveUrl 0;
            ChangeUrl 0 (js "http://a"); ClickRemoveUrl 0] opened);
    vm_compute; discriminate.
Defined.

Lemma delete_snoc {A} (l : list A) (x : A) : delete (length l) (l ++ [x]) = l.
Proof. induction l as [|y l IH]; simpl; [done | by rewrite IH]. Qed.

(** X15.  Removing the row that was just added restores the rows: with at
    least one row before, [addUrl] followed by [removeUrl] of the new last
    index gives back the rows there were. *)
Theorem addUrl_removeUrl_restores (w : World) :
  urls (scraper_ui w) ≠ [] →
  urls (scraper_ui
          (exec (removeUrl (length (urls (scraper_ui w)))) (exec addUrl w).1).1)
  = urls (scraper_ui w).
Proof.
  intros Hu. rewrite removeUrl_urls. unfold addUrl. cbn [exec]. simpl.
  rewrite length_app. simpl.
  replace (Nat.ltb 1 (length (urls (scraper_ui w)) + 1)) with true.
  - apply delete_snoc.
  - symmetry. apply Nat.ltb_lt. destruct (urls (scraper_ui w)); simpl; [done | lia].
Qed.

Lemma addUrl_removeUrl_restores_witness :
  urls (scraper_ui
          (exec (removeUrl 2)
             (exec addUrl (filled [js "a"; js "b"] [js ""] opened)).1).1)
  = [js "a"; js "b"].
Proof.
  apply (addUrl_removeUrl_restores (filled [js "a"; js "b"] [js ""] opened)).
  vm_compute. discriminate.
Defined.

Lemma kept_snoc_blank (l : list (list N)) : kept (l ++ [[]]) = kept l.
Proof. unfold kept. rewrite List.filter_app. simpl. apply app_nil_r. Qed.

(** X16.  Empty rows do not count: adding a URL row or a keyword row before
    submitting changes neither whether a request is sent nor the request
    that is sent. *)
Theorem empty_rows_do_not_change_submission (w : World) :
  requests (log (exec App.handleSubmit (exec addUrl w).1).1)
  = requests (log (exec App.handleSubmit w).1)
  ∧ requests (log (exec App.handleSubmit (exec addKeyword w).1).1)
    = requests (log (exec App.handleSubmit w).1).
Proof.
  rewrite !handleSubmit_requests. unfold submission, addUrl, addKeyword.
  cbn [exec]. simpl. by rewrite !kept_snoc_blank.
Qed.

End MoreScraperFacts.

(* ===================================================================== *)
(** ** Further properties of the application shell *)
(* ===================================================================== *)

Section MoreAppFacts.
Import AppState App.

Lemma filter_all {A} (p : A → bool) (l : list A) :
  Forall (λ x, p x = true) l → List.filter p l = l.
Proof. induction 1 as [|x l Hx _ IH]; simpl; [done |]. by rewrite Hx, IH. Qed.

Lemma filter_none {A} (p : A → bool) (l : list A) :
  Forall (λ x, p x = false) l → List.filter p l = [].
Proof. induction 1 as [|x l Hx _ IH]; simpl; [done |]. by rewrite Hx. Qed.

(** X17.  The cleanup of [App]'s mount effect undoes the effect: when no
    pending timer already carries the handle about to be handed out, the
    timers after effect and cleanup are the timers before, and with no
    other timer pending nothing ever fires, however long one waits. *)
Theorem mount_cleanup_undoes_effect (w : World) (ms : N) :
  handles_fresh w →
  timers (mount_cleanup (mount_effect w).2 (mount_effect w).1) = timers w
  ∧ (timers w = [] →
     app (elapse ms (mount_cleanup (mount_effect w).2 (mount_effect w).1)) = app w).
Proof.
  intros Hf.
  assert (Ht : timers (mount_cleanup (mount_effect w).2 (mount_effect w).1)
               = timers w).
  { unfold mount_cleanup, clearTimeout, mount_effect. simpl.
    rewrite List.filter_app. simpl. rewrite N.eqb_refl. simpl.
    rewrite app_nil_r. apply filter_all.
    eapply Forall_impl; [exact Hf |]. intros t Ht. simpl in Ht.
    apply negb_true_iff, N.eqb_neq. lia. }
  split; [done |]. intros Hw. unfold elapse. rewrite Ht, Hw. done.
Qed.

Lemma mount_cleanup_undoes_effect_witness :
  timers (mount_cleanup (mount_effect opened).2 (mount_effect opened).1)
  = timers opened.
Proof.
  apply (mount_cleanup_undoes_effect opened 0). constructor.
Defined.


Lemma elapse_idle (w : World) (ms : N) :
  Forall (λ t, clock w + ms < due t) (timers w) →
  elapse ms w = pending_after ms w
  ∧ timers (pending_after ms w) = timers w.
Proof.
  intros Hd. unfold elapse, pending_after.
  rewrite filter_none.
  - split; [done |]. simpl. apply filter_all.
    eapply Forall_impl; [exact Hd |]. intros t Ht. simpl in Ht.
    apply negb_true_iff, N.leb_gt. lia.
  - eapply Forall_impl; [exact Hd |]. intros t Ht. simpl in Ht.
    apply N.leb_gt. lia.
Qed.

Lemma fire_hide_splash (t : Timer) (w : World) :
  callback t = HideSplash →
  isLoading (app w) = true →
  app (fire t w)
  = {| activeTab := activeTab (app w); refreshTrigger := refreshTrigger (app w);
       isLoading := false |}
  ∧ timers (fire t w) = timers w
  ∧ requests (log (fire t w)) = requests (log w) ++ mount_requests (activeTab (app w)).
Proof.
  intros Hc Hl. unfold fire, commit. rewrite Hc. cbn [run_callback].
  destruct (decide (render (app w) = render (app (setIsLoading false w))))
    as [Heq|Hne].
  - unfold render in Heq. rewrite Hl in Heq. simpl in Heq. discriminate.
  - destruct (mount_frame (render (app (setIsLoading false w)))
                (setIsLoading false w)) as (-> & -> & _).
    split; [done |]. split; [done |].
    change (render (app (setIsLoading false w)))
      with (Some (renderContent (app (setIsLoading false w)))).
    by rewrite mount_requests_log.
Qed.

(** X18.  The splash screen lasts two seconds: until 2000 ms have passed
    since [App] was mounted nothing is rendered below it and its timer is
    pending; from then on the timer is gone, the splash is off and the view
    of the active tab is mounted (the list views fetch their list). *)
Theorem splash_lasts_two_seconds (w : World) (ms : N) :
  isLoading (app w) = true →
  timers w = [] →
  (ms < 2000 →
   render (app (elapse ms (mount_effect w).1)) = None
   ∧ length (timers (elapse ms (mount_effect w).1)) = 1%nat
   ∧ log (elapse ms (mount_effect w).1) = log w)
  ∧ (2000 ≤ ms →
     render (app (elapse ms (mount_effect w).1)) = Some (renderContent (app w))
     ∧ timers (elapse ms (mount_effect w).1) = []
     ∧ requests (log (elapse ms (mount_effect w).1))
       = requests (log w) ++ mount_requests (activeTab (app w))).
Proof.
  intros Hl Ht.
  assert (Ht1 : timers (mount_effect w).1
                = [{| timer_id := next_timer w; due := clock w + 2000;
                      callback := HideSplash |}])
    by (simpl; by rewrite Ht).
  split; intros Hms.
  - destruct (elapse_idle (mount_effect w).1 ms) as (-> & Hp).
    { rewrite Ht1. repeat constructor. simpl. lia. }
    rewrite Hp, Ht1. unfold render. simpl. by rewrite Hl.
  - destruct (elapse_single _ (mount_effect w).1 ms Ht1) as (-> & Hp);
      [simpl; lia |].
    destruct (fire_hide_splash
                {| timer_id := next_timer w; due := clock w + 2000;
                   callback := HideSplash |}
                (pending_after ms (mount_effect w).1) eq_refl Hl)
      as (-> & -> & ->).
    rewrite Hp. unfold render. done.
Qed.

Lemma splash_lasts_two_seconds_witness :
  render (app (elapse 1999 (mount_effect fresh_world).1)) = None.
Proof.
  apply (splash_lasts_two_seconds fresh_world 1999); [reflexivity | reflexivity |].
  reflexivity.
Defined.




(** X21.  When the refresh timer fires while a list view is shown, the
    view is replaced by a fresh instance: the items it held and the marks
    of downloads still in flight are gone, so no item shows as busy.  When
    the scraper or the reports view is shown the list view state is left
    alone. *)
Theorem refresh_forgets_view_state (t : Timer) (w : World) (item : list N) :
  callback t = BumpRefresh →
  isLoading (app w) = false →
  (is_Some (tab_kind (activeTab (app w))) →
   manager (fire t w) = ManagerState.initial
   ∧ Manager.isBusy item (manager (fire t w)) = false)
  ∧ (tab_kind (activeTab (app w)) = None → manager (fire t w) = manager w).
Proof.
  intros Hc Hl. unfold fire, commit, render. rewrite Hc. simpl. rewrite Hl.
  unfold renderContent. simpl.
  split; intros Ha.
  - case_decide as Hd.
    + destruct (activeTab (app w)); simplify_eq; try lia;
        destruct Ha as [? Ha]; discriminate.
    + destruct (activeTab (app w)); simpl; try done;
        destruct Ha as [? Ha]; discriminate.
  - case_decide as Hd; [done |].
    destruct (activeTab (app w)); done.
Qed.

Lemma refresh_forgets_view_state_witness :
  Manager.isBusy (js "7")
    (manager (fire (refresh_timer opened)
                (showing [] {[js "7"]} (setActiveTab videos opened))))
  = false.
Proof.
  apply (refresh_forgets_view_state (refresh_timer opened)
           (showing [] {[js "7"]} (setActiveTab videos opened)) (js "7"));
    [reflexivity | reflexivity |].
  simpl. eauto.
Defined.

End MoreAppFacts.

(* ===================================================================== *)
(** ** Properties of the reports view *)
(* ===================================================================== *)

Section ReportsFacts.
Import Reports.

(** X22.  [handleGenerateReports] sends one generate request and disables
    its button while the request is pending.  When the request settles the
    button is enabled again and the handler completes normally: a fulfilled
    request shows the message of the response in an alert, whatever its
    status, a rejected one logs the error and shows the "Failed to
    generate reports" alert.  The download flag is never touched. *)
Theorem handleGenerateReports_settles (s smid : State) (r : GenerateResult)
    (e : list N) :
  generate_disabled (Reports.exec handleGenerateReports s).1 = true
  ∧ calls (Reports.exec handleGenerateReports s).1 = (S (calls s).1, (calls s).2)
  ∧ downloading (Reports.exec handleGenerateReports s).1 = downloading s
  ∧ Reports.resume (Generated r) (Reports.exec handleGenerateReports s).2 smid
    = ({| generating := false; downloading := downloading smid;
          seen := seen smid ++ [Alert (result_message r)]; calls := calls smid |},
       Done tt)
  ∧ Reports.resume (Failed e) (Reports.exec handleGenerateReports s).2 smid
    = ({| generating := false; downloading := downloading smid;
          seen := (seen smid ++ [ConsoleError (js "Failed to generate reports:") e])
                  ++ [Alert (js "Failed to generate reports")];
          calls := calls smid |},
       Done tt).
Proof. done. Qed.

(** X23.  [handleDownloadReports] sends one download request and disables
    its button while the request is pending.  An archive that arrives is
    saved as [reports.zip] without any alert; a rejected request saves
    nothing, logs the error and shows the "Failed to download reports"
    alert.  Either way the button is enabled again, the handler completes
    normally, and the generate flag is never touched. *)
Theorem handleDownloadReports_settles (s smid : State) (b e : list N) :
  download_disabled (Reports.exec handleDownloadReports s).1 = true
  ∧ calls (Reports.exec handleDownloadReports s).1 = ((calls s).1, S (calls s).2)
  ∧ generating (Reports.exec handleDownloadReports s).1 = generating s
  ∧ Reports.resume (Archive b) (Reports.exec handleDownloadReports s).2 smid
    = ({| generating := generating smid; downloading := false;
          seen := seen smid ++ [DownloadFile b (js "reports.zip")];
          calls := calls smid |},
       Done tt)
  ∧ Reports.resume (Failed e) (Reports.exec handleDownloadReports s).2 smid
    = ({| generating := generating smid; downloading := false;
          seen := (seen smid ++ [ConsoleError (js "Failed to download reports:") e])
                  ++ [Alert (js "Failed to download reports")];
          calls := calls smid |},
       Done tt).
Proof. done. Qed.

(** X24.  The two flags of the reports view are plain booleans, so, as for
    the list views, overlapping calls are not counted: of two overlapping
    downloads the first to settle enables the button again while the second
    is still pending, and both archives are saved. *)
Theorem handleDownloadReports_overlap (s : State) (b1 b2 : list N) :
  let first := Reports.exec handleDownloadReports s in
  let second := Reports.exec handleDownloadReports first.1 in
  let first_done := Reports.resume (Archive b1) first.2 second.1 in
  let second_done := Reports.resume (Archive b2) second.2 first_done.1 in
  calls second.1 = ((calls s).1, S (S (calls s).2))
  ∧ download_disabled second.1 = true
  ∧ download_disabled first_done.1 = false
  ∧ (∃ rest, second.2 = Wait Get_reports rest)
  ∧ seen second_done.1
    = (seen s ++ [DownloadFile b1 (js "reports.zip")])
      ++ [DownloadFile b2 (js "reports.zip")].
Proof. simpl. repeat split. eauto. Qed.

End ReportsFacts.

(* ===================================================================== *)
(** ** Properties of the delayed refresh under tab changes *)
(* ===================================================================== *)

Section StageFacts.
Import AppState App Stage.













Lemma select_tab_same (w : World) :
  isLoading (app w) = false →
  select_tab (activeTab (app w)) (settled w)
  = settled (setActiveTab (activeTab (app w)) w).
Proof.
  intros Hl. unfold select_tab. cbn [world settled leaving]. rewrite Hl.
  by rewrite decide_True.
Qed.

Lemma select_tab_away (tab : TabType) (w : World) :
  isLoading (app w) = false →
  activeTab (app w) ≠ tab →
  select_tab tab (settled w)
  = {| world := setActiveTab tab w;
       leaving := Some (renderContent (app w), clock w + 500) |}.
Proof.
  intros Hl Ha. unfold select_tab. cbn [world settled leaving]. rewrite Hl.
  rewrite decide_False by congruence. done.
Qed.

(** With no timer pending, a view that has left by the time is replaced by
    the view of the active tab. *)
Lemma elapse_exit (w : World) (old : Element) (ms ends : N) :
  timers w = [] →
  ends ≤ clock w + ms →
  elapse ms {| world := w; leaving := Some (old, ends) |}
  = settled (mount (render (app (pending_after ms w))) (pending_after ms w)).
Proof.
  intros Ht He. unfold elapse. cbn [world leaving].
  apply N.leb_le in He. rewrite He, Ht. done.
Qed.

(** X20.  Selecting the tab of a list view that is not the active one
    mounts nothing at that moment: the view shown starts to leave and the
    state and the log are as before.  When the 0.5 s of the exit have
    passed, the list view is mounted afresh, with no items, the spinner and
    nothing marked busy, and issues one list request.  If, before that,
    the operator selects yet another tab, the list view is never mounted:
    only the view of the tab selected last is, and none if that is the tab
    whose view was leaving.  Selecting the tab that is already active
    changes nothing. *)
Theorem select_tab_mounts_after_exit (tab other : TabType) (k : Kind)
    (w : World) :
  isLoading (app w) = false →
  timers w = [] →
  tab_kind tab = Some k →
  activeTab (app w) ≠ tab →
  other ≠ tab →
  manager (world (select_tab tab (settled w))) = manager w
  ∧ log (world (select_tab tab (settled w))) = log w
  ∧ leaving (select_tab tab (settled w))
    = Some (renderContent (app w), clock w + 500)
  ∧ leaving (elapse 500 (select_tab tab (settled w))) = None
  ∧ manager (world (elapse 500 (select_tab tab (settled w)))) = ManagerState.initial
  ∧ requests (log (world (elapse 500 (select_tab tab (settled w)))))
    = requests (log w) ++ [Get_list k]
  ∧ requests
      (log (world (elapse 500 (select_tab other (select_tab tab (settled w))))))
    = requests (log w)
      ++ (if decide (other = activeTab (app w)) then [] else mount_requests other)
  ∧ select_tab (activeTab (app w)) (settled w)
    = settled (setActiveTab (activeTab (app w)) w).
Proof.
  intros Hl Ht Hk Ha Ho.
  rewrite (select_tab_same w Hl), (select_tab_away tab w Hl Ha).
  cbn [world leaving].
  split; [done |]. split; [done |]. split; [done |].
  rewrite (elapse_exit (setActiveTab tab w) _ 500 (clock w + 500) Ht)
    by (simpl; lia).
  cbn [world leaving settled].
  split; [done |].
  assert (Hr : render (app (pending_after 500 (setActiveTab tab w)))
               = Some (renderContent (app (setActiveTab tab w)))).
  { unfold render. simpl. by rewrite Hl. }
  rewrite Hr.
  split; [destruct tab; simpl in Hk; simplify_eq; done |].
  split; [rewrite mount_requests_log; destruct tab; simpl in Hk; simplify_eq; done |].
  split; [| done].
  unfold select_tab. cbn [world leaving]. simpl isLoading. rewrite Hl.
  assert (Htab : tab_of (renderContent (app w)) = activeTab (app w)).
  { unfold renderContent. by destruct (activeTab (app w)). }
  rewrite Htab.
  destruct (decide (other = activeTab (app w))) as [->|Hne].
  - cbn [world leaving].
    assert (Hrec : reconcile (renderContent (app w))
                     (setActiveTab (activeTab (app w)) (setActiveTab tab w))
                   = setActiveTab (activeTab (app w)) (setActiveTab tab w)).
    { unfold reconcile, render. simpl. rewrite Hl. by rewrite decide_True. }
    rewrite Hrec. unfold elapse. cbn [leaving world settled].
    unfold App.elapse. simpl. rewrite Ht. simpl. by rewrite app_nil_r.
  - rewrite (elapse_exit (setActiveTab other (setActiveTab tab w)) _ 500
               (clock w + 500) Ht) by (simpl; lia).
    cbn [world settled].
    assert (Hr' : render (app (pending_after 500
                                 (setActiveTab other (setActiveTab tab w))))
                  = Some (renderContent
                            (app (setActiveTab other (setActiveTab tab w))))).
    { unfold render. simpl. by rewrite Hl. }
    rewrite Hr', mount_requests_log. done.
Qed.

Lemma select_tab_mounts_after_exit_witness :
  requests (log (world (elapse 500 (select_tab videos (settled opened)))))
  = requests (log opened) ++ [Get_list VideoKind]
  ∧ requests
      (log (world (elapse 500 (select_tab pdfs (select_tab videos (settled opened))))))
    = requests (log opened)
      ++ (if decide (pdfs = activeTab (app opened)) then [] else mount_requests pdfs).
Proof.
  split;
    apply (select_tab_mounts_after_exit videos pdfs VideoKind opened);
    first [reflexivity | discriminate].
Defined.

End StageFacts.
